(** * Panther: request dispatch core ([panther/main.py], [panther/_utils.py])

    A shallow embedding of the dispatch entry points [Panther.handle_http]
    and [Panther.handle_ws] and of the helpers of [panther/_utils.py]
    ([http_response], [collect_path_variables], [read_multipart_form_data]),
    followed by the properties established about them. *)

From Stdlib Require Import ZArith Ascii String List Bool Lia.
From stdpp Require Import base option list strings pretty gmap.

Local Open Scope string_scope.
Local Open Scope Z_scope.

(** ** Python strings

    A Python [str] (and, for the byte payloads of the wire protocol, a
    [bytes]) is a [string]; the methods used by the sources are written out. *)
Module Str.

(** [s.startswith(prefix)] *)
Fixpoint startswith (pre s : string) : bool :=
  match pre, s with
  | EmptyString, _ => true
  | String a pre', String b s' => if Ascii.eqb a b then startswith pre' s' else false
  | String _ _, EmptyString => false
  end.

(** [s.endswith(suffix)] *)
Fixpoint endswith (suf s : string) : bool :=
  match s with
  | EmptyString => String.eqb EmptyString suf
  | String _ s' => String.eqb s suf || endswith suf s'
  end.

(** the text after the first [n] characters, [s[n:]] *)
Fixpoint drop (n : nat) (s : string) : string :=
  match n, s with
  | O, _ => s
  | S n', String _ s' => drop n' s'
  | S _, EmptyString => EmptyString
  end.

(** [s.removeprefix(prefix)] *)
Definition removeprefix (pre s : string) : string :=
  if startswith pre s then drop (String.length pre) s else s.

(** [s.removesuffix(suffix)]: the suffix is cut where what is left of [s]
    equals it, which is the only place where [s] can end with it. *)
Fixpoint removesuffix (suf s : string) : string :=
  match s with
  | EmptyString => EmptyString
  | String c s' => if String.eqb s suf then EmptyString else String c (removesuffix suf s')
  end.

(** [s[:-1]] *)
Fixpoint drop_last (s : string) : string :=
  match s with
  | EmptyString => EmptyString
  | String c EmptyString => EmptyString
  | String c s' => String c (drop_last s')
  end.

(** [s[1:-1]] *)
Definition slice_1_m1 (s : string) : string := drop_last (drop 1 s).

(** The loop of [s.split(sep)] for a non-empty [sep]: [skip] counts the
    characters of a separator that was just recognised and is being
    passed over; the head of the result is the piece being read. *)
Fixpoint split_go (sep : string) (skip : nat) (s : string) : list string :=
  match s with
  | EmptyString => [EmptyString]
  | String c s' =>
      match skip with
      | S k => split_go sep k s'
      | O =>
          if startswith sep s
          then EmptyString :: split_go sep (Nat.pred (String.length sep)) s'
          else match split_go sep O s' with
               | piece :: pieces => String c piece :: pieces
               | [] => [String c EmptyString]
               end
      end
  end.

(** [s.split(sep)]; Python raises [ValueError: empty separator] for
    [sep == ''], which is [None] here. *)
Definition split (sep s : string) : option (list string) :=
  match sep with
  | EmptyString => None
  | String _ _ => Some (split_go sep O s)
  end.

(** [s.split('/')], whose separator is never empty *)
Definition split_slash (s : string) : list string := split_go "/" O s.

End Str.

(** ** [panther/_utils.py]: path variables *)

(** [collect_path_variables(request_path, found_path)]; the [dict] of path
    variables is a finite map, a later assignment to a key replacing an
    earlier one. *)
Definition strip_separators (path : string) : string :=
  Str.removeprefix "/" (Str.removesuffix "/" path).

Definition collect_step (path_variables : gmap string string) (fr : string * string)
  : gmap string string :=
  let '(f_path, r_path) := fr in
  if Str.startswith "<" f_path
  then <[Str.slice_1_m1 f_path := r_path]> path_variables
  else path_variables.

Definition collect_path_variables (request_path found_path : string) : gmap string string :=
  let found_path := strip_separators found_path in
  let request_path := strip_separators request_path in
  fold_left collect_step
    (combine (Str.split_slash found_path) (Str.split_slash request_path)) ∅.


(** ** Python values, exceptions and the objects of the dispatcher *)

(** The JSON-like values carried as the [detail] of an [APIException] and
    as the [data] of a [Response]. *)
#[warnings="-register-all"]
Inductive PyVal :=
| PyNone
| PyStr (s : string)
| PyInt (z : Z)
| PyDict (items : list (string * PyVal)).

(** [isinstance(v, dict)] *)
Definition is_dict (v : PyVal) : bool :=
  match v with PyDict _ => true | _ => false end.

(** [panther.exceptions.APIException], the application-level error, with
    the two attributes the dispatcher reads. *)
Record APIException := { detail : PyVal; status_code : Z }.

(** The exceptions that cross the dispatcher: an [APIException], or an
    exception of any other class, named by [cls]; whether that class derives
    from [Exception], as [ValueError] does and [SystemExit],
    [KeyboardInterrupt] and [asyncio.CancelledError] do not, is
    [derives_from_Exception] below. *)
Inductive Exception :=
| API (e : APIException)
| Error (cls : string) (msg : string).

(** What a call does: it returns a value or raises. *)
Inductive Outcome (A : Type) :=
| Returned (a : A)
| Raised (e : Exception).
Arguments Returned {A} a.
Arguments Raised {A} e.

(** The ASGI [scope] keys read by the dispatcher. *)
Record Scope := { scope_type : string; scope_path : string }.

(** [panther.status]: the constants used by [panther/main.py], whose names
    carry their values. *)
Definition HTTP_404_NOT_FOUND : Z := 404.
Definition HTTP_500_INTERNAL_SERVER_ERROR : Z := 500.
Definition HTTP_501_NOT_IMPLEMENTED : Z := 501.
Definition WS_1000_NORMAL_CLOSURE : Z := 1000.
Definition WS_1014_BAD_GATEWAY : Z := 1014.

(** The collaborators of the dispatcher that live outside the two source
    files: the application state the hooks and handlers act on, the
    [Request], [Response] and websocket connection classes, [orjson.dumps]
    and [clean_traceback_message], whose calls are taken to return; the
    class hierarchy of the exceptions; and the entries of
    [panther.status.status_text] the spec does not name. *)
Class Env := {
  World : Type;
  (* panther.request.Request *)
  Request : Type;
  Request_init : Scope -> Request;
  Request_path : Request -> string;
  Request_read_body : Request -> World -> World;
  (* panther.response.Response *)
  Response : Type;
  Response_init : PyVal -> Z -> Response;
  Response_status_code : Response -> Z;
  Response_headers : Response -> list (string * string);
  Response_body : Response -> option string;
  (* panther.websocket *)
  Connection : Type;
  Websocket_init : Scope -> Connection;
  Connection_path : Connection -> string;
  Connection_set_path_variables : gmap string string -> Connection -> Connection;
  Connection_listen : Connection -> World -> Outcome unit * World;
  (* orjson.dumps *)
  json_dumps : PyVal -> string;
  clean_traceback_message : Exception -> string;
  (* issubclass(cls, Exception), for the class named cls *)
  derives_from_Exception : string -> bool;
  (* panther.status.status_text, beyond the codes the spec names *)
  other_status_texts : Z -> option string
}.

(** Modelled from the spec: the table [panther.status.status_text] is not
    part of the sources; it holds the status texts the spec names
    ([204 No Content], [404 Not Found], [500 Internal Server Error],
    [501 Not Implemented]) and, for every other code, what
    [other_status_texts] holds. A code absent from the table is [None]
    (a [KeyError] at the subscript). *)
Definition status_text {E : Env} (status_code : Z) : option string :=
  if status_code =? 204 then Some "No Content"
  else if status_code =? 404 then Some "Not Found"
  else if status_code =? 500 then Some "Internal Server Error"
  else if status_code =? 501 then Some "Not Implemented"
  else other_status_texts status_code.

Section Model.
Context {E : Env}.

(** A handler: the [@API]-wrapped function, or [call_method] of a
    [GenericAPI] class, called as [_endpoint(request=request, **path_variables)]. *)
Definition Handler : Type :=
  Request -> gmap string string -> World -> Outcome Response * World.

(** What [find_endpoint] resolves a path to: a function
    ([types.FunctionType]; [has_wrapped] is [hasattr(endpoint, '__wrapped__')])
    or a class, with the two base classes the dispatcher tests for. *)
Inductive Endpoint :=
| FunctionEndpoint (name : string) (has_wrapped : bool) (call : Handler)
| ClassEndpoint (name : string)
    (subclass_of_GenericAPI : bool) (subclass_of_GenericWebsocket : bool)
    (call_method : Handler) (instantiate : Scope -> Connection).

Definition endpoint_name (endpoint : Endpoint) : string :=
  match endpoint with
  | FunctionEndpoint name _ _ => name
  | ClassEndpoint name _ _ _ _ => name
  end.

(** A middleware instance: its class name and its two hooks, as called
    on a request and its response, and as called on a websocket
    connection. *)
Record Middleware := {
  mw_name : string;
  before : Request -> World -> Outcome Request * World;
  after : Response -> World -> Outcome Response * World;
  before_ws : Connection -> World -> Outcome Connection * World;
  after_ws : Connection -> World -> Outcome Connection * World
}.

(** The entries of the global [config] read by the dispatcher;
    [find_endpoint] is the lookup of [panther.routings] over
    [config['urls']], returning the endpoint (or [None]) and the pattern
    it was found under. *)
Record Config := {
  middlewares : list Middleware;
  reversed_middlewares : list Middleware;
  find_endpoint : string -> option Endpoint * string;
  monitoring : bool
}.

(** [Panther.load_configs], the entries above: [loaded] is the result of
    [load_middlewares], [urls] the table read by [load_urls]. *)
Definition load_configs (loaded : list Middleware)
    (urls : string -> option Endpoint * string) (monitoring : bool) : Config :=
  {| middlewares := loaded;
     reversed_middlewares := rev loaded;
     find_endpoint := urls;
     monitoring := monitoring |}.

(** [Monitoring(is_active=..., is_ws=...)] *)
Record Monitoring := { is_active : bool; is_ws : bool }.

(** *** Observable actions *)

Inductive Frame :=
| HttpResponseStart (status : Z) (headers : list (string * string))
| HttpResponseBody (body : option string).

Inductive LogLevel := CRITICAL | ERROR.

Inductive Label := StatusCode (status_code : Z) | Text (label : string).

Inductive Event :=
| MonitoringBefore
| MonitoringAfter (label : Label)
| BodyRead
| BeforeCalled (middleware : string) (request : Request)
| AfterCalled (middleware : string) (response : Response)
| EndpointCalled (name : string) (request : Request) (path_variables : gmap string string)
| Logged (level : LogLevel) (message : string)
| Sent (frame : Frame)
| WsBeforeCalled (middleware : string) (connection : Connection)
| WsAfterCalled (middleware : string) (connection : Connection)
| WsClosed (connection : Connection) (code : option Z)
| WsRegistered (connection : Connection)
| WsListened (connection : Connection).

(** The state a dispatch runs in: the application state and the table of
    live websocket connections ([self.websocket_connections]). *)
Record State := {
  world : World;
  websocket_connections : list Connection
}.

(** A coroutine of the dispatcher: from a state, an outcome, the state it
    leaves and the actions it performed, in order. *)
Definition M (A : Type) : Type := State -> Outcome A * State * list Event.

Definition ret {A} (a : A) : M A := fun st => (Returned a, st, []).

Definition raise {A} (e : Exception) : M A := fun st => (Raised e, st, []).

Definition bind {A B} (m : M A) (k : A -> M B) : M B :=
  fun st =>
    match m st with
    | (Returned a, st1, t1) =>
        match k a st1 with (r, st2, t2) => (r, st2, (t1 ++ t2)%list) end
    | (Raised e, st1, t1) => (Raised e, st1, t1)
    end.

(** [try: body except Exception as e: handler(e)] *)
Definition try_except {A} (body : M A) (handler : Exception -> M A) : M A :=
  fun st =>
    match body st with
    | (Returned a, st1, t1) => (Returned a, st1, t1)
    | (Raised e, st1, t1) =>
        match handler e st1 with (r, st2, t2) => (r, st2, (t1 ++ t2)%list) end
    end.

Definition emit (ev : Event) : M unit := fun st => (Returned tt, st, [ev]).

(** A call into application code, which acts on the application state. *)
Definition call {A} (ev : Event) (f : World -> Outcome A * World) : M A :=
  fun st =>
    match f (world st) with
    | (r, w) => (r, {| world := w; websocket_connections := websocket_connections st |}, [ev])
    end.

End Model.

Declare Scope dispatch_scope.
Delimit Scope dispatch_scope with dispatch.
Notation "x <- c1 ;; c2" := (bind c1 (fun x => c2))
  (at level 100, c1 at next level, right associativity) : dispatch_scope.
Notation "c1 ;; c2" := (bind c1 (fun _ => c2))
  (at level 100, right associativity) : dispatch_scope.

Section Dispatcher.
Context {E : Env}.
Local Open Scope dispatch_scope.

(** *** [panther/_utils.py]: framing a response *)

Definition _http_response_start (status_code : Z) : M unit :=
  emit (Sent (HttpResponseStart status_code [("content-type", "application/json")])).

Definition _http_response_body (body : option string) : M unit :=
  match body with
  | None => emit (Sent (HttpResponseBody None))
  | Some b => emit (Sent (HttpResponseBody (Some b)))
  end.

(** The keyword arguments of a call of [http_response]: those the
    function declares, each passed or not, and the names of any other
    keyword the call passes. *)
Record Kwargs := {
  kw_status_code : option Z;
  kw_monitoring : option (option Monitoring);
  kw_body : option (option string);
  kw_exception : option bool;
  kw_others : list string
}.

(** The body of [http_response], its parameters bound. *)
Definition http_response_bound (status_code : Z) (monitoring : option Monitoring)
    (body : option string) (exception : bool) : M unit :=
  body <- (if exception then
             match status_text status_code with
             | Some text => ret (Some (json_dumps (PyDict [("detail", PyStr text)])))
             | None => raise (Error "KeyError" (pretty status_code))
             end
           else if (status_code =? 204) || bool_decide (body = Some "null") then ret None
           else ret body) ;;
  (match monitoring with
   | Some _ => emit (MonitoringAfter (StatusCode status_code))
   | None => ret tt
   end) ;;
  _http_response_start status_code ;;
  _http_response_body body.

(** [http_response(send, /, *, status_code, monitoring, body=None, exception=False)]:
    a keyword the signature does not declare, or a missing required one,
    is a [TypeError] raised by the call itself. *)
Definition http_response (kwargs : Kwargs) : M unit :=
  match kw_others kwargs with
  | name :: _ =>
      raise (Error "TypeError"
               ("http_response() got an unexpected keyword argument '" ++ name ++ "'"))
  | [] =>
      match kw_status_code kwargs, kw_monitoring kwargs with
      | Some status_code, Some monitoring =>
          http_response_bound status_code monitoring
            (default None (kw_body kwargs)) (default false (kw_exception kwargs))
      | _, _ =>
          raise (Error "TypeError" "http_response() missing required keyword-only arguments")
      end
  end.

(** *** [panther/main.py]: the HTTP dispatcher *)

(** [Panther.handle_exceptions] *)
Definition handle_exceptions (e : APIException) : Response :=
  Response_init
    (if is_dict (detail e) then detail e else PyDict [("detail", detail e)])
    (status_code e).

(** [for middleware in config['middlewares']: request = await middleware.before(request=request)] *)
Fixpoint call_before_middlewares (mws : list Middleware) (request : Request) : M Request :=
  match mws with
  | [] => ret request
  | middleware :: rest =>
      request <- call (BeforeCalled (mw_name middleware) request) (before middleware request) ;;
      call_before_middlewares rest request
  end.

(** The loop over [config['reversed_middlewares']], whose [try] recovers
    from an [APIException] only. *)
Fixpoint call_after_middlewares (mws : list Middleware) (response : Response) : M Response :=
  match mws with
  | [] => ret response
  | middleware :: rest =>
      response <- try_except
                    (call (AfterCalled (mw_name middleware) response) (after middleware response))
                    (fun e => match e with
                              | API e => ret (handle_exceptions e)
                              | Error _ _ => raise e
                              end) ;;
      call_after_middlewares rest response
  end.

(** How the [try] block of [handle_http] is left: by one of its [return]
    statements, or with the [response] the rest of the function uses. *)
Inductive Flow :=
| Return
| Continue (response : Response).

Definition not_implemented (self_monitoring : Monitoring) (message : string) : M Flow :=
  emit (Logged CRITICAL message) ;;
  http_response {| kw_status_code := Some HTTP_501_NOT_IMPLEMENTED;
                   kw_monitoring := Some (Some self_monitoring);
                   kw_body := None;
                   kw_exception := Some true;
                   kw_others := [] |} ;;
  ret Return.

Definition call_endpoint (name : string) (_endpoint : Handler)
    (request : Request) (path_variables : gmap string string) : M Flow :=
  response <- call (EndpointCalled name request path_variables)
                (_endpoint request path_variables) ;;
  ret (Continue response).

Definition handle_http (config : Config) (scope : Scope) : M unit :=
  let self_monitoring := {| is_active := monitoring config; is_ws := false |} in
  let request := Request_init scope in
  emit MonitoringBefore ;;
  call BodyRead (fun w => (Returned tt, Request_read_body request w)) ;;
  let '(endpoint, found_path) := find_endpoint config (Request_path request) in
  let path_variables := collect_path_variables (Request_path request) found_path in
  match endpoint with
  | None =>
      http_response {| kw_status_code := Some HTTP_404_NOT_FOUND;
                       kw_monitoring := Some (Some self_monitoring);
                       kw_body := None;
                       kw_exception := Some true;
                       kw_others := [] |}
  | Some endpoint =>
      flow <- try_except
        (request <- call_before_middlewares (middlewares config) request ;;
         match endpoint with
         | FunctionEndpoint name has_wrapped call =>
             if negb has_wrapped
             then not_implemented self_monitoring
                    ("You may have forgotten to use @API on the " ++ name ++ "()")
             else call_endpoint name call request path_variables
         | ClassEndpoint name subclass_of_GenericAPI _ call_method _ =>
             if negb subclass_of_GenericAPI
             then not_implemented self_monitoring
                    ("You may have forgotten to inherit from GenericAPI on the " ++ name ++ "()")
             else call_endpoint name call_method request path_variables
         end)
        (fun e =>
           match e with
           | API e => ret (Continue (handle_exceptions e))
           | Error cls _ =>
               (* except Exception: a class that does not derive from
                  Exception is not caught *)
               if derives_from_Exception cls
               then
                 let exception := clean_traceback_message e in
                 emit (Logged CRITICAL exception) ;;
                 http_response {| kw_status_code := Some HTTP_500_INTERNAL_SERVER_ERROR;
                                  kw_monitoring := Some (Some self_monitoring);
                                  kw_body := None;
                                  kw_exception := Some true;
                                  kw_others := [] |} ;;
                 ret Return
               else raise e
           end) ;;
      match flow with
      | Return => ret tt
      | Continue response =>
          response <- call_after_middlewares (reversed_middlewares config) response ;;
          http_response {| kw_status_code := Some (Response_status_code response);
                           kw_monitoring := Some (Some self_monitoring);
                           kw_body := Some (Response_body response);
                           kw_exception := None;
                           kw_others := ["headers"] (* headers=response.headers *) |}
      end
  end.

(** *** [panther/main.py]: the websocket dispatcher *)

(** Modelled from the spec: [Websocket.close] belongs to
    [panther.websocket], which is not part of the sources; closing is the
    close frame with its code ([None] when the call passes none). *)
Definition websocket_close (connection : Connection) (code : option Z) : M unit :=
  emit (WsClosed connection code).

(** Modelled from the spec: [WebsocketConnections.new_connection] belongs
    to [panther.websocket], which is not part of the sources; it inserts
    the connection into the table of live connections. *)
Definition new_connection (connection : Connection) : M unit :=
  fun st =>
    (Returned tt,
     {| world := world st;
        websocket_connections := (websocket_connections st ++ [connection])%list |},
     [WsRegistered connection]).

(** The [for] loop over [config['middlewares']] of [handle_ws]: the
    connection it leaves, and whether it was left by [break]. *)
Fixpoint ws_before_middlewares (mws : list Middleware) (connection : Connection)
  : M (Connection * bool) :=
  match mws with
  | [] => ret (connection, false)
  | middleware :: rest =>
      r <- try_except
             (c <- call (WsBeforeCalled (mw_name middleware) connection)
                     (before_ws middleware connection) ;;
              ret (Some c))
             (fun e => match e with
                       | API _ => websocket_close connection None ;; ret None
                       | Error _ _ => raise e
                       end) ;;
      match r with
      | Some c => ws_before_middlewares rest c
      | None => ret (connection, true)
      end
  end.

(** The loop over [config['reversed_middlewares']] of [handle_ws], each
    call under [contextlib.suppress(APIException)]. *)
Fixpoint ws_after_middlewares (mws : list Middleware) (connection : Connection) : M unit :=
  match mws with
  | [] => ret tt
  | middleware :: rest =>
      try_except
        (call (WsAfterCalled (mw_name middleware) connection)
           (after_ws middleware connection) ;;
         ret tt)
        (fun e => match e with
                  | API _ => ret tt
                  | Error _ _ => raise e
                  end) ;;
      ws_after_middlewares rest connection
  end.

Definition handle_ws (config : Config) (scope : Scope) : M unit :=
  let temp_connection := Websocket_init scope in
  emit MonitoringBefore ;;
  let '(endpoint, found_path) := find_endpoint config (Connection_path temp_connection) in
  match endpoint with
  | None =>
      emit (MonitoringAfter (Text "Rejected")) ;;
      websocket_close temp_connection (Some WS_1000_NORMAL_CLOSURE)
  | Some endpoint =>
      let path_variables :=
        collect_path_variables (Connection_path temp_connection) found_path in
      match endpoint with
      | FunctionEndpoint _ _ _ =>
          (* issubclass(endpoint, GenericWebsocket) on an object that is not a class *)
          raise (Error "TypeError" "issubclass() arg 1 must be a class")
      | ClassEndpoint name _ subclass_of_GenericWebsocket _ instantiate =>
          if negb subclass_of_GenericWebsocket
          then
            emit (Logged CRITICAL
                    ("You may have forgotten to inherit from GenericWebsocket on the "
                     ++ name ++ "()")) ;;
            emit (MonitoringAfter (Text "Rejected")) ;;
            websocket_close temp_connection (Some WS_1014_BAD_GATEWAY)
          else
            let connection :=
              Connection_set_path_variables path_variables (instantiate scope) in
            r <- ws_before_middlewares (middlewares config) connection ;;
            let '(connection, broke) := r in
            (if broke then ret tt
             else
               new_connection connection ;;
               emit (MonitoringAfter (Text "Accepted")) ;;
               call (WsListened connection) (Connection_listen connection)) ;;
            ws_after_middlewares (reversed_middlewares config) connection ;;
            emit (MonitoringAfter (Text "Closed"))
      end
  end.

(** [Panther.__call__] *)
Definition Panther_call (config : Config) (scope : Scope) : M unit :=
  if String.eqb (scope_type scope) "http"
  then handle_http config scope
  else handle_ws config scope.

End Dispatcher.

(** ** [panther/_utils.py]: multipart form data *)

Module Re.

Definition CR : ascii := "013"%char.
Definition LF : ascii := "010"%char.
Definition CRLF : string := String CR (String LF EmptyString).
Definition DQUOTE : string := String "034"%char EmptyString.

(** The regular expressions of the sources are sequences of groups, each
    a sequence of literal texts and of [.*]. *)
Inductive Atom :=
| Lit (text : string)
| DotStar.

Definition Group : Type := list Atom.
Definition Pattern : Type := list Group.

(** Matching the atoms of one group at the head of [s], as the
    backtracking matcher of [re] does: [.*] takes as many characters other
    than a line feed as it can and gives them back one at a time while the
    rest of the pattern, [k], fails. [captured] is the text the group has
    matched so far. *)
Fixpoint match_atoms {R : Type} (atoms : list Atom) (captured s : string)
    (k : string -> string -> option R) : option R :=
  match atoms with
  | [] => k captured s
  | Lit text :: rest =>
      if Str.startswith text s
      then match_atoms rest (captured ++ text) (Str.drop (String.length text) s) k
      else None
  | DotStar :: rest =>
      (fix star (captured s : string) {struct s} : option R :=
         match s with
         | String c s' =>
             if Ascii.eqb c LF then match_atoms rest captured s k
             else match star (captured ++ String c EmptyString) s' with
                  | Some r => Some r
                  | None => match_atoms rest captured s k
                  end
         | EmptyString => match_atoms rest captured s k
         end) captured s
  end.

(** [re.match(pattern, string)]: the texts of the groups ([match.groups()])
    when the pattern matches at the start of the string. *)
Fixpoint re_match (pattern : Pattern) (s : string) : option (list string) :=
  match pattern with
  | [] => Some []
  | group :: groups =>
      match_atoms group EmptyString s
        (fun captured s' => option_map (cons captured) (re_match groups s'))
  end.

(** What the groups of a match say about the text they were matched on:
    [no_lf d] when [d] holds no line feed, so that [.*] can take it. *)
Fixpoint no_lf (d : string) : bool :=
  match d with
  | EmptyString => true
  | String c d' => negb (Ascii.eqb c LF) && no_lf d'
  end.

(** The texts a sequence of atoms can consume. *)
Fixpoint atoms_match (atoms : list Atom) (consumed : string) : Prop :=
  match atoms with
  | [] => consumed = EmptyString
  | Lit text :: rest => exists c, consumed = text ++ c /\ atoms_match rest c
  | DotStar :: rest =>
      exists d c, consumed = d ++ c /\ no_lf d = true /\ atoms_match rest c
  end.

(** The text up to the first line feed and the text after it. *)
Fixpoint cut (s : string) : option (string * string) :=
  match s with
  | EmptyString => None
  | String c s' =>
      if Ascii.eqb c LF then Some (EmptyString, s')
      else match cut s' with
           | Some (line, rest) => Some (String c line, rest)
           | None => None
           end
  end.

(** The third line of a text, without its line feed. *)
Definition third_line (s : string) : option string :=
  match cut s with
  | Some (_, s1) =>
      match cut s1 with
      | Some (_, s2) =>
          match cut s2 with
          | Some (line, _) => Some line
          | None => None
          end
      | None => None
      end
  | None => None
  end.

(** The groups of a match, one after the other. *)
Definition flatten (groups : list string) : string :=
  fold_right String.append EmptyString groups.

End Re.

(** The groups (Junk)(FieldName): any text, CR LF, the
    Content-Disposition header up to the quote that opens the name; then
    any text. *)
Definition per_pattern : Re.Pattern :=
  [ [Re.DotStar; Re.Lit (Re.CRLF ++ "Content-Disposition: form-data; name=" ++ Re.DQUOTE)];
    [Re.DotStar] ].

(** The groups (Junk)(Value): CR LF CR LF; then any text. *)
Definition value_pattern : Re.Pattern :=
  [ [Re.Lit (Re.CRLF ++ Re.CRLF)]; [Re.DotStar] ].

(** (Junk)(FieldName) (Junk)(Value)(Junk) *)
Definition field_pattern : Re.Pattern :=
  (per_pattern ++ value_pattern ++ [ [Re.Lit Re.CRLF; Re.DotStar] ])%list.

(** (Junk)(FieldName) (Junk)(FileName)(Junk)(ContentType) (Junk)(Value) *)
Definition file_pattern : Re.Pattern :=
  (per_pattern
   ++ [ [Re.Lit (Re.DQUOTE ++ "; filename=" ++ Re.DQUOTE)]; [Re.DotStar];
        [Re.Lit (Re.DQUOTE ++ Re.CRLF ++ "Content-Type: ")]; [Re.DotStar] ]
   ++ value_pattern)%list.

(** One turn of the loop of [read_multipart_form_data] over a part of the
    body: [fields] and the messages passed to [logger.error] so far. *)
Definition read_part (acc : gmap string string * list string) (field : string)
  : gmap string string * list string :=
  let '(fields, errors) := acc in
  let fields :=
    match Re.re_match field_pattern field with
    | Some [_; field_name; _; value; _] => <[field_name := value]> fields
    | _ => fields
    end in
  let errors :=
    match Re.re_match file_pattern field with
    | Some _ => (errors ++ ["We Don't Handle Files In Multipart Request Yet."])%list
    | None => errors
    end in
  (fields, errors).

(** [read_multipart_form_data(content_type, body)]: what the call returns or
    raises, and the messages it logs. *)
Definition read_multipart_form_data (content_type body : string)
  : Outcome (gmap string string) * list string :=
  let boundary := Str.drop 30 content_type in
  match Str.split boundary body with
  | None => (Raised (Error "ValueError" "empty separator"), [])
  | Some parts =>
      let '(fields, errors) := fold_left read_part parts (∅, []) in
      (Returned fields, errors)
  end.


(** ** Reading a trace *)

Section Traces.
Context {E : Env}.

(** The middlewares whose [before] was called, in order. *)
Definition before_calls (t : list Event) : list string :=
  omap (fun ev => match ev with BeforeCalled name _ => Some name | _ => None end) t.

(** The middlewares whose [after] was called and the response each was
    called on, in order. *)
Definition after_calls (t : list Event) : list (string * Response) :=
  omap (fun ev => match ev with AfterCalled name r => Some (name, r) | _ => None end) t.

(** The endpoints that were called. *)
Definition endpoint_calls (t : list Event) : list string :=
  omap (fun ev => match ev with EndpointCalled name _ _ => Some name | _ => None end) t.

(** The frames passed to [send]. *)
Definition frames (t : list Event) : list Frame :=
  omap (fun ev => match ev with Sent f => Some f | _ => None end) t.

(** The messages logged, with their level. *)
Definition logged (t : list Event) : list (LogLevel * string) :=
  omap (fun ev => match ev with Logged l m => Some (l, m) | _ => None end) t.

(** The close codes sent on websocket connections. *)
Definition close_codes (t : list Event) : list (option Z) :=
  omap (fun ev => match ev with WsClosed _ code => Some code | _ => None end) t.

(** The connections inserted into the table of live connections. *)
Definition registrations (t : list Event) : list Connection :=
  omap (fun ev => match ev with WsRegistered c => Some c | _ => None end) t.

(** The bytes a body frame carries: the ASGI default for a frame without
    a [body] key is the empty payload. *)
Definition payload (f : Frame) : string :=
  match f with
  | HttpResponseBody (Some b) => b
  | _ => EmptyString
  end.

(** The capability check of [handle_http]: a function needs
    [__wrapped__], a class needs [GenericAPI] among its bases. *)
Definition conforms_http (endpoint : Endpoint) : bool :=
  match endpoint with
  | FunctionEndpoint _ has_wrapped _ => has_wrapped
  | ClassEndpoint _ subclass_of_GenericAPI _ _ _ => subclass_of_GenericAPI
  end.

(** What [handle_http] calls for an endpoint that passes the check. *)
Definition endpoint_handler (endpoint : Endpoint) : Handler :=
  match endpoint with
  | FunctionEndpoint _ _ call => call
  | ClassEndpoint _ _ _ call_method _ => call_method
  end.

(** The message logged for an endpoint that fails the check. *)
Definition forgotten_message (endpoint : Endpoint) : string :=
  match endpoint with
  | FunctionEndpoint name _ _ =>
      "You may have forgotten to use @API on the " ++ name ++ "()"
  | ClassEndpoint name _ _ _ _ =>
      "You may have forgotten to inherit from GenericAPI on the " ++ name ++ "()"
  end.

(** What framing a response with [exception=True] does: the note to the
    monitoring, the start frame and the body frame. *)
Definition exception_frames (status_code : Z) (text : string) : list Event :=
  [ MonitoringAfter (StatusCode status_code);
    Sent (HttpResponseStart status_code [("content-type", "application/json")]);
    Sent (HttpResponseBody (Some (json_dumps (PyDict [("detail", PyStr text)])))) ].

(** The state in which the middlewares of an HTTP dispatch start. *)
Definition after_read_body (scope : Scope) (st : State) : State :=
  {| world := Request_read_body (Request_init scope) (world st);
     websocket_connections := websocket_connections st |}.

End Traces.

(** ** A small application, to run the dispatcher on *)

Module Sample.

Record SampleResponse := {
  sr_data : PyVal;
  sr_status_code : Z;
  sr_headers : list (string * string)
}.

(** Enough of a JSON writer for the values of this application. *)
Definition dumps (v : PyVal) : string :=
  match v with
  | PyNone => "null"
  | PyStr s => Re.DQUOTE ++ s ++ Re.DQUOTE
  | PyDict [(k, PyStr s)] =>
      "{" ++ Re.DQUOTE ++ k ++ Re.DQUOTE ++ ":" ++ Re.DQUOTE ++ s ++ Re.DQUOTE ++ "}"
  | _ => "{}"
  end.

(** The application state counts the calls made into application code. *)
#[export] Instance env : Env := {|
  World := nat;
  Request := string;
  Request_init := scope_path;
  Request_path := fun r => r;
  Request_read_body := fun _ w => w;
  Response := SampleResponse;
  Response_init := fun d s => {| sr_data := d; sr_status_code := s; sr_headers := [] |};
  Response_status_code := sr_status_code;
  Response_headers := sr_headers;
  Response_body := fun r => Some (dumps (sr_data r));
  Connection := string;
  Websocket_init := scope_path;
  Connection_path := fun c => c;
  Connection_set_path_variables := fun _ c => c;
  Connection_listen := fun _ w => (Returned tt, S w);
  json_dumps := dumps;
  clean_traceback_message :=
    fun e => match e with
             | API _ => "APIException"
             | Error cls _ => cls
             end;
  derives_from_Exception :=
    fun cls => negb (bool_decide (cls ∈ ["BaseException"; "SystemExit"; "KeyboardInterrupt";
                                         "GeneratorExit"; "CancelledError"]));
  other_status_texts :=
    fun status_code =>
      if status_code =? 200 then Some "Ok"
      else if status_code =? 400 then Some "Bad Request"
      else if status_code =? 401 then Some "Unauthorized"
      else if status_code =? 403 then Some "Forbidden"
      else if status_code =? 405 then Some "Method Not Allowed"
      else None
|}.

(** A middleware whose hooks pass their argument on, or raise. *)
Definition middleware (name : string) (on_before on_after : option Exception) : Middleware :=
  {| mw_name := name;
     before := fun r w => (match on_before with None => Returned r | Some e => Raised e end, S w);
     after := fun r w => (match on_after with None => Returned r | Some e => Raised e end, S w);
     before_ws := fun c w => (match on_before with None => Returned c | Some e => Raised e end, S w);
     after_ws := fun c w => (match on_after with None => Returned c | Some e => Raised e end, S w) |}.

Definition forbidden : APIException := {| detail := PyStr "forbidden"; status_code := 403 |}.

Definition ok_response : SampleResponse :=
  {| sr_data := PyDict [("name", PyStr "x")];
     sr_status_code := 200;
     sr_headers := [("x-request-id", "7")] |}.

(** Handlers: one that answers, one that fails with a defect. *)
Definition answer : Handler := fun _ _ w => (Returned ok_response, S w).
Definition crash : Handler := fun _ _ w => (Raised (Error "ZeroDivisionError" "division by zero"), S w).

(** The route table: an [@API] function, a function without the
    decorator, a websocket class and a class without the websocket base. *)
Definition urls (path : string) : option Endpoint * string :=
  if String.eqb path "/users/42/" then (Some (FunctionEndpoint "user" true answer), "users/<id>/")
  else if String.eqb path "/crash/" then (Some (FunctionEndpoint "crash" true crash), "crash/")
  else if String.eqb path "/plain/" then (Some (FunctionEndpoint "plain" false answer), "plain/")
  else if String.eqb path "/chat/" then
    (Some (ClassEndpoint "Chat" false true answer (fun s => scope_path s)), "chat/")
  else if String.eqb path "/page/" then
    (Some (ClassEndpoint "Page" false false answer (fun s => scope_path s)), "page/")
  else (None, "").

Definition http (path : string) : Scope := {| scope_type := "http"; scope_path := path |}.
Definition websocket (path : string) : Scope := {| scope_type := "websocket"; scope_path := path |}.

(** The state after [calls] calls into application code, no connection
    being live. *)
Definition state (calls : nat) : State :=
  @Build_State env calls [].

Definition start : State := state O.

(** Five middlewares, the third of which refuses the request. *)
Definition five : list Middleware :=
  [ middleware "A" None None; middleware "B" None None;
    middleware "C" (Some (API forbidden)) None;
    middleware "D" None None; middleware "E" None None ].

(** The same chain, the [after] of whose last middleware has a defect. *)
Definition five_defect : list Middleware :=
  [ middleware "A" None None; middleware "B" None None;
    middleware "C" (Some (API forbidden)) None;
    middleware "D" None None;
    middleware "E" None (Some (Error "ValueError" "bad value")) ].

(** A form with the one field [a], of value [1], under the boundary [XYZ]. *)
Definition form_content_type : string := "multipart/form-data; boundary=XYZ".

Definition form_body : string :=
  "--XYZ" ++ Re.CRLF
  ++ "Content-Disposition: form-data; name=" ++ Re.DQUOTE ++ "a" ++ Re.DQUOTE ++ Re.CRLF
  ++ Re.CRLF
  ++ "1" ++ Re.CRLF
  ++ "--XYZ--" ++ Re.CRLF.

End Sample.

(** ** [panther/_utils.py]: reading the request body *)

(** A message of the ASGI [receive] channel, with the two keys [read_body]
    reads, each present or not. *)
Record Message := { msg_body : option string; msg_more_body : option bool }.

(** The [while more_body] loop of [read_body]: [receive] holds the messages
    the host delivers, in order, and [body] what was read so far; the loop
    returns the body and the messages it did not take, and [None] stands
    for a loop still awaiting a message the host never sends. *)
Fixpoint read_body_loop (receive : list Message) (body : string)
  : option (string * list Message) :=
  match receive with
  | [] => None
  | message :: rest =>
      let body := body ++ default EmptyString (msg_body message) in
      let more_body := default false (msg_more_body message) in
      if more_body then read_body_loop rest body else Some (body, rest)
  end.

(** [read_body(receive)] *)
Definition read_body (receive : list Message) : option (string * list Message) :=
  read_body_loop receive EmptyString.

(** The payloads of a run of messages, one after the other. *)
Definition payloads (messages : list Message) : string :=
  Re.flatten (map (fun m => default EmptyString (msg_body m)) messages).

(** [message.get('more_body', False)] *)
Definition more_body (message : Message) : bool :=
  default false (msg_more_body message).

(** ** Segments of a path *)

Module Path.

(** ['/'.join(segments)] *)
Fixpoint join (segments : list string) : string :=
  match segments with
  | [] => EmptyString
  | [segment] => segment
  | segment :: rest => segment ++ "/" ++ join rest
  end.

(** Whether a text holds a separator. *)
Fixpoint has_separator (s : string) : bool :=
  match s with
  | EmptyString => false
  | String c s' => Ascii.eqb c "/" || has_separator s'
  end.

(** The number of separators of a text. *)
Fixpoint separators (s : string) : nat :=
  match s with
  | EmptyString => O
  | String c s' => if Ascii.eqb c "/" then S (separators s') else separators s'
  end.

(** The segments of the pattern and of the request that
    [collect_path_variables] walks through side by side. *)
Definition zipped (request_path found_path : string) : list (string * string) :=
  combine (Str.split_slash (strip_separators found_path))
          (Str.split_slash (strip_separators request_path)).

(** A segment of a pattern that names a variable. *)
Definition is_placeholder (segment : string) : bool := Str.startswith "<" segment.

End Path.

(** ** Parts of a multipart body *)

(** Whether [file_pattern] matches a part. *)
Definition is_file_part (field : string) : bool :=
  match Re.re_match file_pattern field with
  | Some _ => true
  | None => false
  end.

(** The message logged for a part [file_pattern] matches. *)
Definition files_not_handled : string := "We Don't Handle Files In Multipart Request Yet.".

(** ** More readings of a trace *)

Section MoreTraces.
Context {E : Env}.

(** The middlewares whose [before] was called on a websocket connection,
    with the connection. *)
Definition ws_before_calls (t : list Event) : list (string * Connection) :=
  omap (fun ev => match ev with WsBeforeCalled name c => Some (name, c) | _ => None end) t.

(** The middlewares whose [after] was called on a websocket connection,
    with the connection. *)
Definition ws_after_calls (t : list Event) : list (string * Connection) :=
  omap (fun ev => match ev with WsAfterCalled name c => Some (name, c) | _ => None end) t.

(** The connections whose [listen] was called. *)
Definition listened (t : list Event) : list Connection :=
  omap (fun ev => match ev with WsListened c => Some c | _ => None end) t.

(** The notes passed to [monitoring.after]. *)
Definition monitored (t : list Event) : list Label :=
  omap (fun ev => match ev with MonitoringAfter l => Some l | _ => None end) t.

(** The call [handle_http] ends with when the [after] loop completes. *)
Definition unexpected_headers : Exception :=
  Error "TypeError" "http_response() got an unexpected keyword argument 'headers'".

(** How [handle_http] ends once the loop over the [after] hooks is done:
    with the exception that left the loop, or with the [TypeError] of the
    call that passes [headers] to [http_response]. *)
Definition after_chain_outcome (result : Outcome Response) : Outcome unit :=
  match result with
  | Returned _ => Raised unexpected_headers
  | Raised e => Raised e
  end.

(** How a dispatch comes to the loop over the [after] hooks: with the
    actions since the body was read, the response the loop is entered with
    and the state it is entered in. *)
Inductive enters_after_chain (config : Config) (scope : Scope) (st : State)
    (endpoint : Endpoint) (found_path : string)
  : list Event -> Response -> State -> Prop :=
| enters_refused (a : APIException) (st1 : State) (tb : list Event) :
    call_before_middlewares (middlewares config) (Request_init scope) (after_read_body scope st)
    = (Raised (API a), st1, tb) ->
    enters_after_chain config scope st endpoint found_path tb (handle_exceptions a) st1
| enters_handler_refused (request' : Request) (st1 : State) (tb : list Event)
    (a : APIException) (w : World) :
    call_before_middlewares (middlewares config) (Request_init scope) (after_read_body scope st)
    = (Returned request', st1, tb) ->
    conforms_http endpoint = true ->
    endpoint_handler endpoint request'
      (collect_path_variables (Request_path (Request_init scope)) found_path) (world st1)
    = (Raised (API a), w) ->
    enters_after_chain config scope st endpoint found_path
      (tb ++ [EndpointCalled (endpoint_name endpoint) request'
                (collect_path_variables (Request_path (Request_init scope)) found_path)])%list
      (handle_exceptions a)
      {| world := w; websocket_connections := websocket_connections st1 |}
| enters_handled (request' : Request) (st1 : State) (tb : list Event)
    (response : Response) (w : World) :
    call_before_middlewares (middlewares config) (Request_init scope) (after_read_body scope st)
    = (Returned request', st1, tb) ->
    conforms_http endpoint = true ->
    endpoint_handler endpoint request'
      (collect_path_variables (Request_path (Request_init scope)) found_path) (world st1)
    = (Returned response, w) ->
    enters_after_chain config scope st endpoint found_path
      (tb ++ [EndpointCalled (endpoint_name endpoint) request'
                (collect_path_variables (Request_path (Request_init scope)) found_path)])%list
      response
      {| world := w; websocket_connections := websocket_connections st1 |}.

(** The ways through [handle_http], each with the result it gives. *)
Inductive http_path (config : Config) (scope : Scope) (st : State)
  : Outcome unit * State * list Event -> Prop :=
| path_no_route (found_path : string) :
    find_endpoint config (Request_path (Request_init scope)) = (None, found_path) ->
    http_path config scope st
      (Returned tt, after_read_body scope st,
       ([MonitoringBefore; BodyRead] ++ exception_frames 404 "Not Found")%list)
| path_before_defect (endpoint : Endpoint) (found_path cls msg : string)
    (st1 : State) (tb : list Event) :
    find_endpoint config (Request_path (Request_init scope)) = (Some endpoint, found_path) ->
    call_before_middlewares (middlewares config) (Request_init scope) (after_read_body scope st)
    = (Raised (Error cls msg), st1, tb) ->
    derives_from_Exception cls = true ->
    http_path config scope st
      (Returned tt, st1,
       ([MonitoringBefore; BodyRead] ++ tb
        ++ Logged CRITICAL (clean_traceback_message (Error cls msg))
           :: exception_frames 500 "Internal Server Error")%list)
| path_before_escape (endpoint : Endpoint) (found_path cls msg : string)
    (st1 : State) (tb : list Event) :
    find_endpoint config (Request_path (Request_init scope)) = (Some endpoint, found_path) ->
    call_before_middlewares (middlewares config) (Request_init scope) (after_read_body scope st)
    = (Raised (Error cls msg), st1, tb) ->
    derives_from_Exception cls = false ->
    http_path config scope st
      (Raised (Error cls msg), st1, ([MonitoringBefore; BodyRead] ++ tb)%list)
| path_not_implemented (endpoint : Endpoint) (found_path : string)
    (request' : Request) (st1 : State) (tb : list Event) :
    find_endpoint config (Request_path (Request_init scope)) = (Some endpoint, found_path) ->
    call_before_middlewares (middlewares config) (Request_init scope) (after_read_body scope st)
    = (Returned request', st1, tb) ->
    conforms_http endpoint = false ->
    http_path config scope st
      (Returned tt, st1,
       ([MonitoringBefore; BodyRead] ++ tb
        ++ Logged CRITICAL (forgotten_message endpoint)
           :: exception_frames 501 "Not Implemented")%list)
| path_handler_defect (endpoint : Endpoint) (found_path cls msg : string)
    (request' : Request) (st1 : State) (tb : list Event) (w : World) :
    find_endpoint config (Request_path (Request_init scope)) = (Some endpoint, found_path) ->
    call_before_middlewares (middlewares config) (Request_init scope) (after_read_body scope st)
    = (Returned request', st1, tb) ->
    conforms_http endpoint = true ->
    endpoint_handler endpoint request'
      (collect_path_variables (Request_path (Request_init scope)) found_path) (world st1)
    = (Raised (Error cls msg), w) ->
    derives_from_Exception cls = true ->
    http_path config scope st
      (Returned tt, {| world := w; websocket_connections := websocket_connections st1 |},
       ([MonitoringBefore; BodyRead] ++ tb
        ++ EndpointCalled (endpoint_name endpoint) request'
             (collect_path_variables (Request_path (Request_init scope)) found_path)
           :: Logged CRITICAL (clean_traceback_message (Error cls msg))
           :: exception_frames 500 "Internal Server Error")%list)
| path_handler_escape (endpoint : Endpoint) (found_path cls msg : string)
    (request' : Request) (st1 : State) (tb : list Event) (w : World) :
    find_endpoint config (Request_path (Request_init scope)) = (Some endpoint, found_path) ->
    call_before_middlewares (middlewares config) (Request_init scope) (after_read_body scope st)
    = (Returned request', st1, tb) ->
    conforms_http endpoint = true ->
    endpoint_handler endpoint request'
      (collect_path_variables (Request_path (Request_init scope)) found_path) (world st1)
    = (Raised (Error cls msg), w) ->
    derives_from_Exception cls = false ->
    http_path config scope st
      (Raised (Error cls msg),
       {| world := w; websocket_connections := websocket_connections st1 |},
       ([MonitoringBefore; BodyRead] ++ tb
        ++ [EndpointCalled (endpoint_name endpoint) request'
              (collect_path_variables (Request_path (Request_init scope)) found_path)])%list)
| path_after_chain (endpoint : Endpoint) (found_path : string)
    (t0 : list Event) (response : Response) (st1 st2 : State)
    (result : Outcome Response) (ta : list Event) :
    find_endpoint config (Request_path (Request_init scope)) = (Some endpoint, found_path) ->
    enters_after_chain config scope st endpoint found_path t0 response st1 ->
    call_after_middlewares (reversed_middlewares config) response st1 = (result, st2, ta) ->
    http_path config scope st
      (after_chain_outcome result, st2, ([MonitoringBefore; BodyRead] ++ t0 ++ ta)%list).

End MoreTraces.

(** ** More of the sample application *)

Module Cases.
Import Sample.

(** A handler that refuses the request. *)
Definition refuse : Handler := fun _ _ w => (Raised (API forbidden), S w).

(** The route table of the sample application and one more function. *)
Definition urls (path : string) : option Endpoint * string :=
  if String.eqb path "/refuse/" then (Some (FunctionEndpoint "refuse" true refuse), "refuse/")
  else Sample.urls path.

Definition passing : Middleware := middleware "A" None None.
Definition passing_too : Middleware := middleware "B" None None.
Definition broken : Middleware :=
  middleware "X" (Some (Error "KeyError" "user")) None.

(** A handler and a hook that end the process: [SystemExit] does not
    derive from [Exception]. *)
Definition quit : Handler := fun _ _ w => (Raised (Error "SystemExit" "0"), S w).

Definition quitting : Middleware :=
  middleware "Q" (Some (Error "SystemExit" "0")) None.

Definition urls_quit (path : string) : option Endpoint * string :=
  if String.eqb path "/quit/" then (Some (FunctionEndpoint "quit" true quit), "quit/")
  else urls path.

Definition monitor : Monitoring := {| is_active := true; is_ws := false |}.

(** A body delivered in three messages, the second without a payload, and
    a message of the next request behind them. *)
Definition chunks : list Message :=
  [ {| msg_body := Some "ab"; msg_more_body := Some true |};
    {| msg_body := None; msg_more_body := Some true |} ].

Definition final_chunk : Message := {| msg_body := Some "cd"; msg_more_body := None |}.

Definition next_request : list Message :=
  [ {| msg_body := Some "zz"; msg_more_body := Some false |} ].

(** A form with the field [a] and a file under the boundary [XYZ]. *)
Definition upload_body : string :=
  "--XYZ" ++ Re.CRLF
  ++ "Content-Disposition: form-data; name=" ++ Re.DQUOTE ++ "a" ++ Re.DQUOTE ++ Re.CRLF
  ++ Re.CRLF
  ++ "1" ++ Re.CRLF
  ++ "--XYZ" ++ Re.CRLF
  ++ "Content-Disposition: form-data; name=" ++ Re.DQUOTE ++ "f" ++ Re.DQUOTE
  ++ "; filename=" ++ Re.DQUOTE ++ "a.txt" ++ Re.DQUOTE ++ Re.CRLF
  ++ "Content-Type: text/plain" ++ Re.CRLF
  ++ Re.CRLF
  ++ "hello" ++ Re.CRLF
  ++ "--XYZ--" ++ Re.CRLF.

End Cases.

Local Open Scope list_scope.

(** ** The string methods and the regular expressions on examples *)

Example split_pieces : Str.split "," "a,b,,c" = Some ["a"; "b"; ""; "c"].
Proof. reflexivity. Qed.

Example split_overlapping : Str.split "aa" "aaa" = Some [""; "a"].
Proof. reflexivity. Qed.

Example split_empty_separator : Str.split "" "abc" = None.
Proof. reflexivity. Qed.

Example removesuffix_once : Str.removesuffix "/" "a//" = "a/".
Proof. reflexivity. Qed.

Example slice_of_placeholder : Str.slice_1_m1 "<id>" = "id".
Proof. reflexivity. Qed.

(** ** Properties of [collect_path_variables] *)

Section Separators.

Lemma removesuffix_added (s : string) : Str.removesuffix "/" (s ++ "/")%string = s.
Proof.
  induction s as [|c s IH]; simpl.
  - reflexivity.
  - rewrite IH. destruct (Ascii.eqb c "/"); [|reflexivity].
    destruct s; reflexivity.
Qed.

Lemma removesuffix_absent (s : string) :
  Str.endswith "/" s = false -> Str.removesuffix "/" s = s.
Proof.
  induction s as [|c s IH]; intros Hends.
  - reflexivity.
  - cbn [Str.endswith] in Hends. cbn [Str.removesuffix].
    apply orb_false_iff in Hends as [Hhere Hrest].
    rewrite Hhere, (IH Hrest). reflexivity.
Qed.

(** A trailing separator added to a path that has none is stripped again. *)
Lemma strip_separators_trailing (path : string) :
  Str.endswith "/" path = false ->
  strip_separators (path ++ "/")%string = strip_separators path.
Proof.
  intros Hends. unfold strip_separators.
  rewrite removesuffix_added, (removesuffix_absent _ Hends). reflexivity.
Qed.

(** A leading separator added to a path that has none is stripped again. *)
Lemma strip_separators_leading (path : string) :
  Str.startswith "/" path = false ->
  strip_separators ("/" ++ path)%string = strip_separators path.
Proof.
  intros Hstarts. unfold strip_separators.
  destruct path as [|c path]; [reflexivity|].
  assert (Hc : Ascii.eqb "/" c = false).
  { cbn [Str.startswith] in Hstarts. destruct (Ascii.eqb "/" c); [discriminate | reflexivity]. }
  assert (Hwhole : String.eqb (String c path) "/" = false).
  { cbn [String.eqb]. rewrite Ascii.eqb_sym, Hc. reflexivity. }
  change (Str.removesuffix "/" ("/" ++ String c path)%string)
    with (String "/" (Str.removesuffix "/" (String c path))).
  change (Str.removeprefix "/" (String "/" (Str.removesuffix "/" (String c path))))
    with (Str.removesuffix "/" (String c path)).
  cbn [Str.removesuffix]. rewrite Hwhole.
  unfold Str.removeprefix. cbn [Str.startswith]. rewrite Hc. reflexivity.
Qed.

(** C9 (as amended). The path variables of [/users/42/] under
    [/users/<id>/] are [id = 42]; and a single separator added at the
    head (at the end) of either argument that does not begin (end) with
    one, or equally the only separator removed from there, leaves the
    mapping as it was. *)
Theorem collect_path_variables_separators :
  collect_path_variables "/users/42/" "/users/<id>/" = {["id" := "42"]} /\
  forall request_path found_path : string,
    (Str.startswith "/" request_path = false ->
     collect_path_variables ("/" ++ request_path)%string found_path
     = collect_path_variables request_path found_path) /\
    (Str.endswith "/" request_path = false ->
     collect_path_variables (request_path ++ "/")%string found_path
     = collect_path_variables request_path found_path) /\
    (Str.startswith "/" found_path = false ->
     collect_path_variables request_path ("/" ++ found_path)%string
     = collect_path_variables request_path found_path) /\
    (Str.endswith "/" found_path = false ->
     collect_path_variables request_path (found_path ++ "/")%string
     = collect_path_variables request_path found_path).
Proof.
  split; [vm_compute; reflexivity|].
  intros request_path found_path. unfold collect_path_variables.
  repeat split; intros Hedge.
  - rewrite (strip_separators_leading _ Hedge). reflexivity.
  - rewrite (strip_separators_trailing _ Hedge). reflexivity.
  - rewrite (strip_separators_leading _ Hedge). reflexivity.
  - rewrite (strip_separators_trailing _ Hedge). reflexivity.
Qed.

Lemma collect_path_variables_separators_witness :
  Str.startswith "/" "users/42" = false /\
  Str.endswith "/" "users/42" = false /\
  collect_path_variables "/users/42" "users/<id>" = collect_path_variables "users/42" "users/<id>" /\
  collect_path_variables "users/42/" "users/<id>" = collect_path_variables "users/42" "users/<id>" /\
  collect_path_variables "users/42" "/users/<id>" = collect_path_variables "users/42" "users/<id>" /\
  collect_path_variables "users/42" "users/<id>/" = collect_path_variables "users/42" "users/<id>".
Proof.
  destruct collect_path_variables_separators as [_ Hinv].
  destruct (Hinv "users/42" "users/<id>") as (H1 & H2 & H3 & H4).
  split; [reflexivity|]. split; [reflexivity|].
  split; [exact (H1 eq_refl)|]. split; [exact (H2 eq_refl)|].
  split; [exact (H3 eq_refl)| exact (H4 eq_refl)].
Defined.

(** C9 as stated fails: a separator added in front of [/users/42/], which
    begins with one already, changes the mapping from [id = 42] to
    [id = users]. *)
Lemma collect_path_variables_double_separator :
  collect_path_variables ("/" ++ "/users/42/")%string "/users/<id>/" = {["id" := "users"]} /\
  collect_path_variables ("/" ++ "/users/42/")%string "/users/<id>/"
  <> collect_path_variables "/users/42/" "/users/<id>/".
Proof.
  split; [vm_compute; reflexivity|].
  intros Heq. apply (f_equal (fun m => m !! "id")) in Heq.
  vm_compute in Heq. discriminate Heq.
Qed.

End Separators.

(** ** Properties of the dispatcher *)

Ltac monad_step :=
  unfold bind, try_except, call, emit, ret, raise; simpl.

Section Properties.
Context {E : Env}.

(** *** The two middleware loops *)

(** The loop over the [before] hooks calls nothing but [before] hooks and
    leaves the table of connections alone. *)
Lemma call_before_middlewares_quiet (mws : list Middleware) (request : Request) (st : State) :
  let r := call_before_middlewares mws request st in
  after_calls (snd r) = [] /\ endpoint_calls (snd r) = [] /\
  frames (snd r) = [] /\ logged (snd r) = [].
Proof.
  revert request st. induction mws as [|m rest IH]; intros request st; simpl.
  - repeat split; reflexivity.
  - monad_step.
    destruct (before m request (world st)) as [[request'|e] w]; simpl.
    + specialize (IH request' {| world := w; websocket_connections := websocket_connections st |}).
      simpl in IH.
      destruct (call_before_middlewares rest request' _) as [[o st2] t2]; simpl in *.
      exact IH.
    + repeat split; reflexivity.
Qed.

(** As long as no [after] hook raises anything but an [APIException], the
    loop over the [after] hooks calls every one of them, in the order of
    its list, the first on the response the loop is entered with. *)
Lemma call_after_middlewares_all (mws : list Middleware) :
  (forall m response w e w',
      m ∈ mws -> after m response w = (Raised e, w') -> exists a, e = API a) ->
  forall (response : Response) (st : State),
  exists response' st' t,
    call_after_middlewares mws response st = (Returned response', st', t) /\
    map fst (after_calls t) = map mw_name mws /\
    head (after_calls t) = head (map (fun m => (mw_name m, response)) mws) /\
    before_calls t = [] /\ endpoint_calls t = [].
Proof.
  induction mws as [|m rest IH]; intros Hafter response st; simpl.
  - exists response, st, []. repeat split; reflexivity.
  - assert (Hrest : forall m0 response0 w e w',
               m0 ∈ rest -> after m0 response0 w = (Raised e, w') -> exists a, e = API a).
    { intros m0 response0 w e w' Hin. apply Hafter. right. exact Hin. }
    specialize (IH Hrest).
    monad_step.
    destruct (after m response (world st)) as [[response1|e] w] eqn:Hm; simpl.
    + destruct (IH response1 {| world := w; websocket_connections := websocket_connections st |})
        as (response' & st' & t & Hrun & Hnames & _ & Hb & He).
      rewrite Hrun. exists response', st', (AfterCalled (mw_name m) response :: t).
      simpl. rewrite Hnames, Hb, He. repeat split; reflexivity.
    + destruct (Hafter m response (world st) e w) as [a ->]; [left | exact Hm |].
      simpl.
      destruct (IH (handle_exceptions a)
                  {| world := w; websocket_connections := websocket_connections st |})
        as (response' & st' & t & Hrun & Hnames & _ & Hb & He).
      rewrite Hrun. exists response', st', (AfterCalled (mw_name m) response :: t).
      simpl. rewrite Hnames, Hb, He. repeat split; reflexivity.
Qed.

(** Whatever its hooks do, the loop over the [after] hooks calls no
    [before] hook and no endpoint. *)
Lemma call_after_middlewares_quiet (mws : list Middleware) (response : Response) (st : State) :
  let r := call_after_middlewares mws response st in
  before_calls (snd r) = [] /\ endpoint_calls (snd r) = [] /\
  frames (snd r) = [] /\ logged (snd r) = [].
Proof.
  revert response st. induction mws as [|m rest IH]; intros response st; simpl.
  - repeat split; reflexivity.
  - monad_step.
    destruct (after m response (world st)) as [[response1|[a|cls msg]] w]; simpl.
    + specialize (IH response1 {| world := w; websocket_connections := websocket_connections st |}).
      simpl in IH.
      destruct (call_after_middlewares rest response1 _) as [[o st2] t2]; simpl in *.
      exact IH.
    + specialize (IH (handle_exceptions a)
                    {| world := w; websocket_connections := websocket_connections st |}).
      simpl in IH.
      destruct (call_after_middlewares rest (handle_exceptions a) _) as [[o st2] t2]; simpl in *.
      exact IH.
    + repeat split; reflexivity.
Qed.

(** *** The paths through [handle_http] *)

(** A [before] hook raised an [APIException]: the actions of the dispatch
    are those of the [before] loop followed by those of the [after] loop,
    entered with the mapped response. *)
Lemma handle_http_refused (config : Config) (scope : Scope) (st st' : State)
    (endpoint : Endpoint) (found_path : string) (e : APIException) (tb : list Event) :
  find_endpoint config (Request_path (Request_init scope)) = (Some endpoint, found_path) ->
  call_before_middlewares (middlewares config) (Request_init scope) (after_read_body scope st)
  = (Raised (API e), st', tb) ->
  snd (handle_http config scope st)
  = [MonitoringBefore; BodyRead] ++ tb
    ++ snd (call_after_middlewares (reversed_middlewares config) (handle_exceptions e) st').
Proof.
  intros Hfind Hbefore. unfold handle_http. rewrite Hfind.
  unfold after_read_body in Hbefore. monad_step. rewrite Hbefore. simpl.
  destruct (call_after_middlewares _ _ _) as [[[response|ex] st2] ta]; simpl;
    rewrite ?app_nil_r; reflexivity.
Qed.

(** A [before] hook raised another exception, of a class that derives
    from [Exception]: the dispatch logs it and frames a 500. *)
Lemma handle_http_before_defect (config : Config) (scope : Scope) (st st' : State)
    (endpoint : Endpoint) (found_path cls msg : string) (tb : list Event) :
  find_endpoint config (Request_path (Request_init scope)) = (Some endpoint, found_path) ->
  call_before_middlewares (middlewares config) (Request_init scope) (after_read_body scope st)
  = (Raised (Error cls msg), st', tb) ->
  derives_from_Exception cls = true ->
  handle_http config scope st
  = (Returned tt, st',
     [MonitoringBefore; BodyRead] ++ tb
     ++ Logged CRITICAL (clean_traceback_message (Error cls msg))
        :: exception_frames 500 "Internal Server Error").
Proof.
  intros Hfind Hbefore Hclass. unfold handle_http. rewrite Hfind.
  unfold after_read_body in Hbefore. monad_step. rewrite Hbefore. simpl.
  rewrite Hclass. simpl. rewrite ?app_nil_r. reflexivity.
Qed.

(** A [before] hook raised an exception of a class that does not derive
    from [Exception]: no clause of the [try] catches it and it leaves the
    dispatch. *)
Lemma handle_http_before_escape (config : Config) (scope : Scope) (st st' : State)
    (endpoint : Endpoint) (found_path cls msg : string) (tb : list Event) :
  find_endpoint config (Request_path (Request_init scope)) = (Some endpoint, found_path) ->
  call_before_middlewares (middlewares config) (Request_init scope) (after_read_body scope st)
  = (Raised (Error cls msg), st', tb) ->
  derives_from_Exception cls = false ->
  handle_http config scope st
  = (Raised (Error cls msg), st', [MonitoringBefore; BodyRead] ++ tb).
Proof.
  intros Hfind Hbefore Hclass. unfold handle_http. rewrite Hfind.
  unfold after_read_body in Hbefore. monad_step. rewrite Hbefore. simpl.
  rewrite Hclass. simpl. rewrite ?app_nil_r. reflexivity.
Qed.

(** The [before] loop completed and the endpoint fails the capability
    check: the dispatch logs the mistake and frames a 501. *)
Lemma handle_http_not_implemented (config : Config) (scope : Scope) (st st' : State)
    (endpoint : Endpoint) (found_path : string) (request' : Request) (tb : list Event) :
  find_endpoint config (Request_path (Request_init scope)) = (Some endpoint, found_path) ->
  conforms_http endpoint = false ->
  call_before_middlewares (middlewares config) (Request_init scope) (after_read_body scope st)
  = (Returned request', st', tb) ->
  handle_http config scope st
  = (Returned tt, st',
     [MonitoringBefore; BodyRead] ++ tb
     ++ Logged CRITICAL (forgotten_message endpoint)
        :: exception_frames 501 "Not Implemented").
Proof.
  intros Hfind Hconf Hbefore. unfold handle_http. rewrite Hfind.
  unfold after_read_body in Hbefore. monad_step. rewrite Hbefore. simpl.
  destruct endpoint as [name wrapped f | name api ws f inst]; simpl in Hconf; subst;
    monad_step; rewrite ?app_nil_r; reflexivity.
Qed.

(** The [before] loop completed, the endpoint passes the check and its
    call raises an exception that is not an [APIException], of a class
    that derives from [Exception]. *)
Lemma handle_http_handler_defect (config : Config) (scope : Scope) (st st' : State)
    (endpoint : Endpoint) (found_path cls msg : string) (request' : Request)
    (tb : list Event) (w : World) :
  let path_variables :=
    collect_path_variables (Request_path (Request_init scope)) found_path in
  find_endpoint config (Request_path (Request_init scope)) = (Some endpoint, found_path) ->
  conforms_http endpoint = true ->
  call_before_middlewares (middlewares config) (Request_init scope) (after_read_body scope st)
  = (Returned request', st', tb) ->
  endpoint_handler endpoint request' path_variables (world st') = (Raised (Error cls msg), w) ->
  derives_from_Exception cls = true ->
  handle_http config scope st
  = (Returned tt, {| world := w; websocket_connections := websocket_connections st' |},
     [MonitoringBefore; BodyRead] ++ tb
     ++ EndpointCalled (endpoint_name endpoint) request' path_variables
        :: Logged CRITICAL (clean_traceback_message (Error cls msg))
        :: exception_frames 500 "Internal Server Error").
Proof.
  intros pv Hfind Hconf Hbefore Hcall Hclass. unfold handle_http. rewrite Hfind.
  unfold after_read_body in Hbefore. monad_step. rewrite Hbefore. simpl.
  destruct endpoint as [name wrapped f | name api ws f inst]; simpl in Hconf, Hcall; subst;
    unfold call_endpoint; monad_step; fold pv; rewrite Hcall; simpl;
    rewrite Hclass; simpl; rewrite ?app_nil_r, <- ?app_assoc; reflexivity.
Qed.

(** The [before] loop completed, the endpoint passes the check and its
    call raises an exception of a class that does not derive from
    [Exception]: it leaves the dispatch. *)
Lemma handle_http_handler_escape (config : Config) (scope : Scope) (st st' : State)
    (endpoint : Endpoint) (found_path cls msg : string) (request' : Request)
    (tb : list Event) (w : World) :
  let path_variables :=
    collect_path_variables (Request_path (Request_init scope)) found_path in
  find_endpoint config (Request_path (Request_init scope)) = (Some endpoint, found_path) ->
  conforms_http endpoint = true ->
  call_before_middlewares (middlewares config) (Request_init scope) (after_read_body scope st)
  = (Returned request', st', tb) ->
  endpoint_handler endpoint request' path_variables (world st') = (Raised (Error cls msg), w) ->
  derives_from_Exception cls = false ->
  handle_http config scope st
  = (Raised (Error cls msg),
     {| world := w; websocket_connections := websocket_connections st' |},
     [MonitoringBefore; BodyRead] ++ tb
     ++ [EndpointCalled (endpoint_name endpoint) request' path_variables]).
Proof.
  intros pv Hfind Hconf Hbefore Hcall Hclass. unfold handle_http. rewrite Hfind.
  unfold after_read_body in Hbefore. monad_step. rewrite Hbefore. simpl.
  destruct endpoint as [name wrapped f | name api ws f inst]; simpl in Hconf, Hcall; subst;
    unfold call_endpoint; monad_step; fold pv; rewrite Hcall; simpl;
    rewrite Hclass; simpl; rewrite ?app_nil_r, <- ?app_assoc; reflexivity.
Qed.

(** The [before] loop completed, the endpoint passes the check and
    returns a response, and the [after] loop completed: the call that
    should frame the response raises a [TypeError] and sends nothing. *)
Lemma handle_http_handled (config : Config) (scope : Scope) (st st1 st2 : State)
    (endpoint : Endpoint) (found_path : string) (request' : Request)
    (response response' : Response) (tb ta : list Event) (w : World) :
  let path_variables :=
    collect_path_variables (Request_path (Request_init scope)) found_path in
  find_endpoint config (Request_path (Request_init scope)) = (Some endpoint, found_path) ->
  conforms_http endpoint = true ->
  call_before_middlewares (middlewares config) (Request_init scope) (after_read_body scope st)
  = (Returned request', st1, tb) ->
  endpoint_handler endpoint request' path_variables (world st1) = (Returned response, w) ->
  call_after_middlewares (reversed_middlewares config) response
    {| world := w; websocket_connections := websocket_connections st1 |}
  = (Returned response', st2, ta) ->
  handle_http config scope st
  = (Raised (Error "TypeError"
               "http_response() got an unexpected keyword argument 'headers'"),
     st2,
     [MonitoringBefore; BodyRead] ++ tb
     ++ EndpointCalled (endpoint_name endpoint) request' path_variables :: ta).
Proof.
  intros pv Hfind Hconf Hbefore Hcall Hafter. unfold handle_http. rewrite Hfind.
  unfold after_read_body in Hbefore. monad_step. rewrite Hbefore. simpl.
  destruct endpoint as [name wrapped f | name api ws f inst]; simpl in Hconf, Hcall; subst;
    unfold call_endpoint; monad_step; fold pv; rewrite Hcall; simpl;
    rewrite Hafter; simpl; rewrite ?app_nil_r, <- ?app_assoc; reflexivity.
Qed.

(** *** The claims about [handle_http] *)

(** C1 (as amended). A dispatch through five middlewares whose third
    [before] hook raises an [APIException], and none of whose [after]
    hooks raises an exception of another class: exactly the first three
    [before] hooks are called, the endpoint is not called, the five
    [after] hooks are called in the reverse of the order of the chain, and
    the first of them is called on the response [handle_exceptions] maps
    the exception to. *)
Theorem refused_by_third_before_hook
    (m1 m2 m3 m4 m5 : Middleware) (urls : string -> option Endpoint * string)
    (monitor : bool) (scope : Scope) (st : State)
    (endpoint : Endpoint) (found_path : string)
    (r1 r2 : Request) (w1 w2 w3 : World) (e : APIException) :
  let config := load_configs [m1; m2; m3; m4; m5] urls monitor in
  urls (Request_path (Request_init scope)) = (Some endpoint, found_path) ->
  before m1 (Request_init scope) (world (after_read_body scope st)) = (Returned r1, w1) ->
  before m2 r1 w1 = (Returned r2, w2) ->
  before m3 r2 w2 = (Raised (API e), w3) ->
  (forall m response w e' w',
      m ∈ [m1; m2; m3; m4; m5] ->
      after m response w = (Raised e', w') -> exists a, e' = API a) ->
  let t := snd (handle_http config scope st) in
  before_calls t = [mw_name m1; mw_name m2; mw_name m3] /\
  endpoint_calls t = [] /\
  map fst (after_calls t) = rev (map mw_name (middlewares config)) /\
  head (after_calls t) = Some (mw_name m5, handle_exceptions e).
Proof.
  intros config Hfind H1 H2 H3 Hafter t.
  assert (Hbefore :
    call_before_middlewares (middlewares config) (Request_init scope) (after_read_body scope st)
    = (Raised (API e), {| world := w3; websocket_connections := websocket_connections st |},
       [BeforeCalled (mw_name m1) (Request_init scope);
        BeforeCalled (mw_name m2) r1; BeforeCalled (mw_name m3) r2])).
  { simpl. monad_step. simpl in H1. rewrite H1. simpl. rewrite H2. simpl. rewrite H3.
    reflexivity. }
  assert (Hafter' : forall m response w e' w',
             m ∈ reversed_middlewares config ->
             after m response w = (Raised e', w') -> exists a, e' = API a).
  { intros m response w e' w' Hin. apply Hafter.
    simpl in Hin. rewrite !elem_of_cons in Hin. rewrite !elem_of_cons.
    tauto. }
  destruct (call_after_middlewares_all _ Hafter' (handle_exceptions e)
              {| world := w3; websocket_connections := websocket_connections st |})
    as (response' & st' & ta & Hrun & Hnames & Hhead & Hb & He).
  subst t.
  rewrite (handle_http_refused config scope st _ endpoint found_path e _ Hfind Hbefore).
  rewrite Hrun. simpl.
  unfold before_calls, endpoint_calls, after_calls in *.
  rewrite ?omap_app. simpl. rewrite ?Hb, ?He, ?Hnames, ?Hhead.
  repeat split; reflexivity.
Qed.

(** C2 (as amended). A dispatch whose [before] hooks all return and whose
    endpoint, once called, raises an exception that is not an
    [APIException] and whose class derives from [Exception]: no [after]
    hook is called, the cleaned traceback is logged at the critical level,
    and the frames sent are those of a 500 whose body is the detail of the
    status text, the same whatever the endpoint and the exception were. *)
Theorem handler_defect_frames_500
    (config : Config) (scope : Scope) (st st' : State)
    (endpoint : Endpoint) (found_path cls msg : string) (request' : Request)
    (tb : list Event) (w : World) :
  find_endpoint config (Request_path (Request_init scope)) = (Some endpoint, found_path) ->
  conforms_http endpoint = true ->
  call_before_middlewares (middlewares config) (Request_init scope) (after_read_body scope st)
  = (Returned request', st', tb) ->
  endpoint_handler endpoint request'
    (collect_path_variables (Request_path (Request_init scope)) found_path) (world st')
  = (Raised (Error cls msg), w) ->
  derives_from_Exception cls = true ->
  let r := handle_http config scope st in
  fst (fst r) = Returned tt /\
  endpoint_calls (snd r) = [endpoint_name endpoint] /\
  after_calls (snd r) = [] /\
  logged (snd r) = [(CRITICAL, clean_traceback_message (Error cls msg))] /\
  frames (snd r)
  = [HttpResponseStart 500 [("content-type", "application/json")];
     HttpResponseBody
       (Some (json_dumps (PyDict [("detail", PyStr "Internal Server Error")])))].
Proof.
  intros Hfind Hconf Hbefore Hcall Hclass r. subst r.
  rewrite (handle_http_handler_defect config scope st st' endpoint found_path cls msg
             request' tb w Hfind Hconf Hbefore Hcall Hclass).
  pose proof (call_before_middlewares_quiet (middlewares config) (Request_init scope)
                (after_read_body scope st)) as Hquiet.
  rewrite Hbefore in Hquiet. simpl in Hquiet. destruct Hquiet as (Ha & He & Hf & Hl).
  unfold endpoint_calls, after_calls, logged, frames in *. simpl.
  rewrite !omap_app. simpl. rewrite Ha, He, Hf, Hl.
  repeat split; reflexivity.
Qed.

(** C6. A dispatch whose path resolves to no endpoint returns after
    framing a 404, and calls no [before] hook and no [after] hook. *)
Theorem no_route_frames_404 (config : Config) (scope : Scope) (st : State)
    (found_path : string) :
  find_endpoint config (Request_path (Request_init scope)) = (None, found_path) ->
  let r := handle_http config scope st in
  fst (fst r) = Returned tt /\
  frames (snd r)
  = [HttpResponseStart 404 [("content-type", "application/json")];
     HttpResponseBody (Some (json_dumps (PyDict [("detail", PyStr "Not Found")])))] /\
  before_calls (snd r) = [] /\
  after_calls (snd r) = [] /\
  endpoint_calls (snd r) = [].
Proof.
  intros Hfind r. subst r. unfold handle_http. rewrite Hfind.
  monad_step. repeat split; reflexivity.
Qed.

(** C7 (as amended). A dispatch whose endpoint fails the capability
    check never calls the endpoint; when moreover every [before] hook
    returns, so that the check is reached, the dispatch logs at the
    critical level a message that names the endpoint and frames a 501. *)
Theorem failed_capability_check_frames_501
    (config : Config) (scope : Scope) (st : State)
    (endpoint : Endpoint) (found_path : string) :
  find_endpoint config (Request_path (Request_init scope)) = (Some endpoint, found_path) ->
  conforms_http endpoint = false ->
  let r := handle_http config scope st in
  endpoint_calls (snd r) = [] /\
  (forall request' st' tb,
      call_before_middlewares (middlewares config) (Request_init scope)
        (after_read_body scope st) = (Returned request', st', tb) ->
      fst (fst r) = Returned tt /\
      logged (snd r) = [(CRITICAL, forgotten_message endpoint)] /\
      frames (snd r)
      = [HttpResponseStart 501 [("content-type", "application/json")];
         HttpResponseBody
           (Some (json_dumps (PyDict [("detail", PyStr "Not Implemented")])))]) /\
  (exists beginning,
      forgotten_message endpoint = (beginning ++ endpoint_name endpoint ++ "()")%string).
Proof.
  intros Hfind Hconf r. subst r.
  pose proof (call_before_middlewares_quiet (middlewares config) (Request_init scope)
                (after_read_body scope st)) as Hquiet.
  split; [|split].
  - destruct (call_before_middlewares _ _ _) as [[[request'|[a|cls msg]] st'] tb] eqn:Hbefore;
      simpl in Hquiet; destruct Hquiet as (Ha & He & Hf & Hl).
    + rewrite (handle_http_not_implemented config scope st st' endpoint found_path
                 request' tb Hfind Hconf Hbefore).
      unfold endpoint_calls in *. simpl. rewrite omap_app, He. reflexivity.
    + rewrite (handle_http_refused config scope st st' endpoint found_path a tb Hfind Hbefore).
      destruct (call_after_middlewares_quiet (reversed_middlewares config)
                  (handle_exceptions a) st') as (_ & He' & _).
      unfold endpoint_calls in *. simpl. rewrite omap_app, He, He'. reflexivity.
    + destruct (derives_from_Exception cls) eqn:Hclass.
      * rewrite (handle_http_before_defect config scope st st' endpoint found_path cls msg tb
                   Hfind Hbefore Hclass).
        unfold endpoint_calls in *. simpl. rewrite omap_app, He. reflexivity.
      * rewrite (handle_http_before_escape config scope st st' endpoint found_path cls msg tb
                   Hfind Hbefore Hclass).
        unfold endpoint_calls in *. cbn [snd]. rewrite omap_app, He. reflexivity.
  - intros request' st' tb Hbefore.
    rewrite Hbefore in Hquiet. simpl in Hquiet. destruct Hquiet as (Ha & He & Hf & Hl).
    rewrite (handle_http_not_implemented config scope st st' endpoint found_path
               request' tb Hfind Hconf Hbefore).
    unfold logged, frames in *. simpl. rewrite !omap_app, Hf, Hl.
    repeat split; reflexivity.
  - destruct endpoint as [name wrapped f | name api ws f inst]; simpl; eexists; reflexivity.
Qed.

(** *** The claim about [http_response] *)

(** C5. A call of [http_response] that does not frame an exception, with
    the status 204 or with a body that is absent, the serialised [None]
    or the empty byte string: the body frame that follows the start frame
    carries no byte; in the first three cases it has no [body] key. *)
Theorem bodyless_frame (kwargs : Kwargs) (status_code : Z) (mon : option Monitoring)
    (st : State) :
  kw_others kwargs = [] ->
  kw_status_code kwargs = Some status_code ->
  kw_monitoring kwargs = Some mon ->
  default false (kw_exception kwargs) = false ->
  let body := default None (kw_body kwargs) in
  status_code = 204 \/ body = None \/ body = Some "null" \/ body = Some "" ->
  let r := http_response kwargs st in
  fst (fst r) = Returned tt /\
  exists frame,
    frames (snd r)
    = [HttpResponseStart status_code [("content-type", "application/json")]; frame] /\
    payload frame = "" /\
    (status_code = 204 \/ body = None \/ body = Some "null" -> frame = HttpResponseBody None).
Proof.
  intros Hothers Hstatus Hmon Hexc body Hcase r. subst r.
  unfold http_response. rewrite Hothers, Hstatus, Hmon, Hexc. fold body.
  unfold http_response_bound.
  destruct (Z.eqb_spec status_code 204) as [H204|H204]; simpl.
  - split; [destruct mon; reflexivity|].
    exists (HttpResponseBody None). destruct mon; repeat split; reflexivity.
  - case_bool_decide as Hnull.
    + split; [destruct mon; reflexivity|].
      exists (HttpResponseBody None). destruct mon; repeat split; reflexivity.
    + destruct Hcase as [Hc | [Hc | [Hc | Hc]]]; try contradiction.
      * rewrite Hc. split; [destruct mon; reflexivity|].
        exists (HttpResponseBody None). destruct mon; repeat split; reflexivity.
      * rewrite Hc. split; [destruct mon; reflexivity|].
        exists (HttpResponseBody (Some "")).
        destruct mon; (split; [reflexivity | split; [reflexivity|]]);
          intros [? | [? | ?]]; congruence.
Qed.

(** *** The paths through [handle_ws] that end before a connection is built *)

(** No endpoint: the probe is closed with the normal-closure code and the
    table of live connections is as it was. *)
Lemma handle_ws_no_route (config : Config) (scope : Scope) (st : State)
    (found_path : string) :
  find_endpoint config (Connection_path (Websocket_init scope)) = (None, found_path) ->
  handle_ws config scope st
  = (Returned tt, st,
     [MonitoringBefore; MonitoringAfter (Text "Rejected");
      WsClosed (Websocket_init scope) (Some 1000)]).
Proof.
  intros Hfind. unfold handle_ws. rewrite Hfind. monad_step. reflexivity.
Qed.

(** A class without the websocket base: the mistake is logged, the probe
    is closed with the bad-gateway code and the table of live connections
    is as it was. *)
Lemma handle_ws_not_a_websocket (config : Config) (scope : Scope) (st : State)
    (found_path name : string) (api : bool) (f : Handler) (inst : Scope -> Connection) :
  find_endpoint config (Connection_path (Websocket_init scope))
  = (Some (ClassEndpoint name api false f inst), found_path) ->
  handle_ws config scope st
  = (Returned tt, st,
     [MonitoringBefore;
      Logged CRITICAL
        ("You may have forgotten to inherit from GenericWebsocket on the " ++ name ++ "()")%string;
      MonitoringAfter (Text "Rejected");
      WsClosed (Websocket_init scope) (Some 1014)]).
Proof.
  intros Hfind. unfold handle_ws. rewrite Hfind. monad_step. reflexivity.
Qed.

(** A function: [issubclass] raises, nothing is closed. *)
Lemma handle_ws_function (config : Config) (scope : Scope) (st : State)
    (found_path name : string) (wrapped : bool) (f : Handler) :
  find_endpoint config (Connection_path (Websocket_init scope))
  = (Some (FunctionEndpoint name wrapped f), found_path) ->
  handle_ws config scope st
  = (Raised (Error "TypeError" "issubclass() arg 1 must be a class"), st, [MonitoringBefore]).
Proof.
  intros Hfind. unfold handle_ws. rewrite Hfind. monad_step. reflexivity.
Qed.

End Properties.

(** ** The dispatcher at work on the sample application *)

Section Runs.
Import Sample.

Lemma refused_by_third_before_hook_witness :
  let config := load_configs five urls true in
  let t := snd (handle_http config (http "/users/42/") start) in
  urls "/users/42/" = (Some (FunctionEndpoint "user" true answer), "users/<id>/") /\
  before (middleware "C" (Some (API forbidden)) None) "/users/42/" 2%nat
  = (Raised (API forbidden), 3%nat) /\
  before_calls t = ["A"; "B"; "C"] /\
  endpoint_calls t = [] /\
  map fst (after_calls t) = ["E"; "D"; "C"; "B"; "A"] /\
  head (after_calls t) = Some ("E", handle_exceptions forbidden).
Proof.
  split; [reflexivity|]. split; [reflexivity|].
  apply (refused_by_third_before_hook (E := env)
           (middleware "A" None None) (middleware "B" None None)
           (middleware "C" (Some (API forbidden)) None)
           (middleware "D" None None) (middleware "E" None None)
           urls true (http "/users/42/") start
           (FunctionEndpoint "user" true answer) "users/<id>/"
           "/users/42/" "/users/42/" 1%nat 2%nat 3%nat forbidden);
    try reflexivity.
  intros m response w e' w' Hin Hafter.
  rewrite !elem_of_cons in Hin.
  destruct Hin as [-> | [-> | [-> | [-> | [-> | Hin]]]]];
    try discriminate Hafter.
  inversion Hin.
Defined.

(** C1 as stated fails: with the same chain, the [after] hook of whose
    last middleware raises a [ValueError], the third [before] hook still
    raises an [APIException], and one [after] hook is called, not five. *)
Lemma after_hook_defect_stops_after_chain :
  let config := load_configs five_defect urls true in
  let r := handle_http config (http "/users/42/") start in
  length (middlewares config) = 5%nat /\
  before_calls (snd r) = ["A"; "B"; "C"] /\
  after_calls (snd r) = [("E", handle_exceptions forbidden)] /\
  map fst (after_calls (snd r)) <> rev (map mw_name (middlewares config)) /\
  fst (fst r) = Raised (Error "ValueError" "bad value").
Proof.
  cbv zeta. repeat split; try reflexivity.
  vm_compute. discriminate.
Qed.

Lemma handler_defect_frames_500_witness :
  let r := handle_http (load_configs [middleware "A" None None] urls true)
             (http "/crash/") start in
  derives_from_Exception "ZeroDivisionError" = true /\
  fst (fst r) = Returned tt /\
  endpoint_calls (snd r) = ["crash"] /\
  after_calls (snd r) = [] /\
  logged (snd r) = [(CRITICAL, "ZeroDivisionError")] /\
  frames (snd r)
  = [HttpResponseStart 500 [("content-type", "application/json")];
     HttpResponseBody (Some (json_dumps (PyDict [("detail", PyStr "Internal Server Error")])))].
Proof.
  cbv zeta. split; [reflexivity|].
  apply (handler_defect_frames_500 (E := env)
           (load_configs [middleware "A" None None] urls true) (http "/crash/") start
           (state 1)
           (FunctionEndpoint "crash" true crash) "crash/"
           "ZeroDivisionError" "division by zero" "/crash/"
           [@BeforeCalled env "A" "/crash/"] 2%nat);
    reflexivity.
Defined.

(** C2 as stated fails: the endpoint raises [SystemExit], which is not an
    [APIException] and does not derive from [Exception]; the clause
    [except Exception] does not catch it, so it leaves the dispatch,
    nothing is logged and no frame is sent. *)
Lemma handler_exit_escapes :
  let config := load_configs [middleware "A" None None] Cases.urls_quit true in
  let r := handle_http config (http "/quit/") start in
  find_endpoint config "/quit/" = (Some (FunctionEndpoint "quit" true Cases.quit), "quit/") /\
  call_before_middlewares (middlewares config) "/quit/" start
  = (Returned "/quit/", state 1, [@BeforeCalled env "A" "/quit/"]) /\
  Cases.quit "/quit/" (collect_path_variables "/quit/" "quit/") 1%nat
  = (Raised (Error "SystemExit" "0"), 2%nat) /\
  derives_from_Exception "SystemExit" = false /\
  fst (fst r) = Raised (Error "SystemExit" "0") /\
  endpoint_calls (snd r) = ["quit"] /\
  logged (snd r) = [] /\
  frames (snd r) = [].
Proof.
  cbv zeta. repeat split; reflexivity.
Qed.

Lemma no_route_frames_404_witness :
  let r := handle_http (load_configs five urls true) (http "/nowhere/") start in
  fst (fst r) = Returned tt /\
  frames (snd r)
  = [HttpResponseStart 404 [("content-type", "application/json")];
     HttpResponseBody (Some (json_dumps (PyDict [("detail", PyStr "Not Found")])))] /\
  before_calls (snd r) = [] /\
  after_calls (snd r) = [] /\
  endpoint_calls (snd r) = [].
Proof.
  apply (no_route_frames_404 (E := env) (load_configs five urls true) (http "/nowhere/") start "").
  reflexivity.
Defined.

Lemma failed_capability_check_frames_501_witness :
  let r := handle_http (load_configs [middleware "A" None None] urls true)
             (http "/plain/") start in
  endpoint_calls (snd r) = [] /\
  fst (fst r) = Returned tt /\
  logged (snd r) = [(CRITICAL, "You may have forgotten to use @API on the plain()")] /\
  frames (snd r)
  = [HttpResponseStart 501 [("content-type", "application/json")];
     HttpResponseBody (Some (json_dumps (PyDict [("detail", PyStr "Not Implemented")])))].
Proof.
  destruct (failed_capability_check_frames_501 (E := env)
              (load_configs [middleware "A" None None] urls true) (http "/plain/") start
              (FunctionEndpoint "plain" false answer) "plain/" eq_refl eq_refl)
    as (Hcalls & Hreached & _).
  split; [exact Hcalls|].
  exact (Hreached "/plain/" (state 1)
           [@BeforeCalled env "A" "/plain/"] eq_refl).
Defined.

(** C7 as stated fails: the endpoint is a function without [__wrapped__],
    the [before] hook of the only middleware raises an [APIException], and
    the dispatch neither logs nor sends any frame, a 501 least of all. *)
Lemma refused_before_capability_check :
  let config := load_configs [middleware "A" (Some (API forbidden)) None] urls true in
  let r := handle_http config (http "/plain/") start in
  find_endpoint config "/plain/" = (Some (FunctionEndpoint "plain" false answer), "plain/") /\
  conforms_http (FunctionEndpoint "plain" false answer) = false /\
  logged (snd r) = [] /\
  frames (snd r) = [] /\
  after_calls (snd r) = [("A", handle_exceptions forbidden)].
Proof.
  cbv zeta. repeat split; reflexivity.
Qed.

Lemma bodyless_frame_witness :
  let kwargs := {| kw_status_code := Some 204;
                   kw_monitoring := Some (Some {| is_active := true; is_ws := false |});
                   kw_body := Some (Some "{}");
                   kw_exception := None;
                   kw_others := [] |} in
  let r := http_response kwargs start in
  fst (fst r) = Returned tt /\
  exists frame,
    frames (snd r)
    = [HttpResponseStart 204 [("content-type", "application/json")]; frame] /\
    payload frame = "" /\
    (204 = 204 \/ Some "{}" = None \/ Some "{}" = Some "null" -> frame = HttpResponseBody None).
Proof.
  apply (bodyless_frame (E := env)
           {| kw_status_code := Some 204;
              kw_monitoring := Some (Some {| is_active := true; is_ws := false |});
              kw_body := Some (Some "{}");
              kw_exception := None;
              kw_others := [] |}
           204 (Some {| is_active := true; is_ws := false |}) start);
    try reflexivity.
  left. reflexivity.
Defined.

(** C3 fails on the code: the [after] hook of the only middleware raises
    a [ValueError]; the exception leaves [handle_http] and no frame is
    sent. *)
Theorem after_hook_defect_escapes :
  let config :=
    load_configs [middleware "A" None (Some (Error "ValueError" "bad value"))] urls true in
  let r := handle_http config (http "/users/42/") start in
  fst (fst r) = Raised (Error "ValueError" "bad value") /\
  endpoint_calls (snd r) = ["user"] /\
  after_calls (snd r) = [("A", ok_response)] /\
  frames (snd r) = [].
Proof.
  cbv zeta. repeat split; reflexivity.
Qed.

(** C4 fails on the code: the endpoint returns a response and there is no
    middleware; the call that should frame the response passes the
    keyword [headers], which [http_response] does not declare, so it
    raises a [TypeError] and no frame is sent. *)
Theorem final_response_not_framed :
  let r := handle_http (load_configs [] urls true) (http "/users/42/") start in
  endpoint_calls (snd r) = ["user"] /\
  fst (fst r)
  = Raised (Error "TypeError"
              "http_response() got an unexpected keyword argument 'headers'") /\
  frames (snd r) = [].
Proof.
  cbv zeta. repeat split; reflexivity.
Qed.

(** C8 fails on the code: a websocket dispatch to the path of a function
    endpoint; [issubclass] raises a [TypeError], the exception leaves
    [handle_ws], and the connection is not closed with any code. *)
Theorem ws_function_endpoint_raises :
  let r := handle_ws (load_configs [] urls true) (websocket "/users/42/") start in
  fst (fst r) = Raised (Error "TypeError" "issubclass() arg 1 must be a class") /\
  close_codes (snd r) = [] /\
  registrations (snd r) = [].
Proof.
  cbv zeta. repeat split; reflexivity.
Qed.

End Runs.

(** ** Properties of the regular expressions *)

Section Matching.
Import Re.
Local Arguments String.append : simpl nomatch.

Lemma append_assoc (a b c : string) : ((a ++ b) ++ c = a ++ (b ++ c))%string.
Proof. induction a as [|x a IH]; simpl; [reflexivity | rewrite IH; reflexivity]. Qed.

Lemma append_empty (a : string) : (a ++ "")%string = a.
Proof. induction a as [|x a IH]; simpl; [reflexivity | rewrite IH; reflexivity]. Qed.

Lemma startswith_split (text s : string) :
  Str.startswith text s = true -> s = (text ++ Str.drop (String.length text) s)%string.
Proof.
  revert s. induction text as [|a text IH]; intros s Hs; [reflexivity|].
  destruct s as [|b s]; [discriminate|].
  cbn [Str.startswith] in Hs.
  destruct (Ascii.eqb_spec a b) as [->|]; [|discriminate].
  simpl. rewrite <- (IH s Hs). reflexivity.
Qed.

Lemma cut_after (d y : string) :
  no_lf d = true ->
  cut (d ++ y)%string
  = match cut y with
    | Some (line, rest) => Some ((d ++ line)%string, rest)
    | None => None
    end.
Proof.
  induction d as [|c d IH]; intros Hd.
  - simpl. destruct (cut y) as [[line rest]|]; reflexivity.
  - cbn [no_lf] in Hd. apply andb_true_iff in Hd as [Hc Hd].
    apply negb_true_iff in Hc.
    cbn [String.append cut]. rewrite Hc, (IH Hd).
    destruct (cut y) as [[line rest]|]; reflexivity.
Qed.

(** What [match_atoms] accepts, it accepts by consuming a text the atoms
    can consume and handing over the rest. *)
Lemma match_atoms_sound {R : Type} (atoms : list Atom) :
  forall (captured s : string) (k : string -> string -> option R) (r : R),
    match_atoms atoms captured s k = Some r ->
    exists c rest,
      s = (c ++ rest)%string /\ atoms_match atoms c /\ k (captured ++ c)%string rest = Some r.
Proof.
  induction atoms as [|a atoms IH]; intros captured s k r Hm.
  - exists EmptyString, s. rewrite append_empty. repeat split; assumption.
  - destruct a as [text|].
    + cbn [match_atoms] in Hm.
      destruct (Str.startswith text s) eqn:Hs; [|discriminate].
      apply IH in Hm as (c & rest & Heq & Hc & Hk).
      exists (text ++ c)%string, rest.
      rewrite append_assoc, <- Heq, <- append_assoc.
      split; [exact (startswith_split _ _ Hs)|].
      split; [exists c; split; [reflexivity | exact Hc] | exact Hk].
    + cbn [match_atoms] in Hm.
      revert captured Hm. induction s as [|x s IHs]; intros captured Hm.
      * apply IH in Hm as (c & rest & Heq & Hc & Hk).
        exists c, rest. split; [exact Heq|].
        split; [exists EmptyString, c; repeat split; assumption | exact Hk].
      * destruct (Ascii.eqb x LF) eqn:Hx.
        -- apply IH in Hm as (c & rest & Heq & Hc & Hk).
           exists c, rest. split; [exact Heq|].
           split; [exists EmptyString, c; repeat split; assumption | exact Hk].
        -- match type of Hm with
           | match ?star with Some _ => _ | None => _ end = _ =>
               destruct star as [r'|] eqn:Hstar
           end.
           ++ injection Hm as ->.
              apply IHs in Hstar as (c & rest & Heq & (d & c' & Hdc & Hd & Hc') & Hk).
              exists (String x c), rest.
              split; [simpl; rewrite Heq; reflexivity|].
              split.
              ** exists (String x d), c'. subst c. simpl. rewrite Hx. simpl.
                 repeat split; assumption.
              ** rewrite append_assoc in Hk. exact Hk.
           ++ apply IH in Hm as (c & rest & Heq & Hc & Hk).
              exists c, rest. split; [exact Heq|].
              split; [exists EmptyString, c; repeat split; assumption | exact Hk].
Qed.

(** The groups of a match are texts their atoms can consume, and the
    matched text begins with them. *)
Lemma re_match_sound (pattern : Pattern) :
  forall (s : string) (groups : list string),
    re_match pattern s = Some groups ->
    Forall2 atoms_match pattern groups /\
    exists rest, s = (flatten groups ++ rest)%string.
Proof.
  induction pattern as [|g pattern IH]; intros s groups Hm.
  - injection Hm as <-. split; [constructor | exists s; reflexivity].
  - cbn [re_match] in Hm.
    apply match_atoms_sound in Hm as (c & rest & Heq & Hc & Hk).
    simpl in Hk.
    destruct (re_match pattern rest) as [groups'|] eqn:Hrest; [|discriminate].
    injection Hk as <-.
    apply IH in Hrest as (Hall & rest' & Hrest').
    split; [constructor; assumption|].
    exists rest'. simpl. rewrite append_assoc, <- Hrest'. exact Heq.
Qed.

(** The third line of a part that matches [field_pattern] is empty: the
    name is followed by an empty line. *)
Lemma field_pattern_third_line (field : string) (groups : list string) :
  re_match field_pattern field = Some groups ->
  third_line field = Some (String CR EmptyString).
Proof.
  intros Hm. apply re_match_sound in Hm as (Hall & rest & ->).
  unfold field_pattern, per_pattern, value_pattern in Hall. simpl in Hall.
  repeat match goal with
         | Hf : Forall2 _ (_ :: _) _ |- _ =>
             apply Forall2_cons_inv_l in Hf as (? & ? & ? & Hf & ->)
         | Hf : Forall2 _ [] _ |- _ => apply Forall2_nil_inv_l in Hf as ->
         end.
  repeat match goal with
         | Ha : atoms_match _ _ |- _ => cbn [atoms_match] in Ha
         | Ha : exists _, _ |- _ => destruct Ha as [? Ha]
         | Ha : _ /\ _ |- _ => destruct Ha as [? Ha]
         end.
  subst. unfold third_line, flatten. simpl.
  repeat (rewrite ?append_assoc, ?append_empty; simpl).
  repeat (rewrite cut_after by assumption; simpl).
  reflexivity.
Qed.

(** The third line of a part that matches [file_pattern] is its
    Content-Type header. *)
Lemma file_pattern_third_line (field : string) (groups : list string) :
  re_match file_pattern field = Some groups ->
  exists content_type,
    third_line field = Some ("Content-Type: " ++ content_type ++ String CR EmptyString)%string.
Proof.
  intros Hm. apply re_match_sound in Hm as (Hall & rest & ->).
  unfold file_pattern, per_pattern, value_pattern in Hall. simpl in Hall.
  repeat match goal with
         | Hf : Forall2 _ (_ :: _) _ |- _ =>
             apply Forall2_cons_inv_l in Hf as (? & ? & ? & Hf & ->)
         | Hf : Forall2 _ [] _ |- _ => apply Forall2_nil_inv_l in Hf as ->
         end.
  repeat match goal with
         | Ha : atoms_match _ _ |- _ => cbn [atoms_match] in Ha
         | Ha : exists _, _ |- _ => destruct Ha as [? Ha]
         | Ha : _ /\ _ |- _ => destruct Ha as [? Ha]
         end.
  subst. unfold third_line, flatten. simpl.
  repeat (rewrite ?append_assoc, ?append_empty; simpl).
  repeat (rewrite cut_after by assumption; simpl).
  eexists. reflexivity.
Qed.

(** A part that [file_pattern] matches is not matched by [field_pattern]. *)
Lemma file_part_is_no_field (field : string) (groups : list string) :
  re_match file_pattern field = Some groups ->
  re_match field_pattern field = None.
Proof.
  intros Hfile.
  destruct (re_match field_pattern field) as [groups'|] eqn:Hfield; [|reflexivity].
  apply field_pattern_third_line in Hfield.
  apply file_pattern_third_line in Hfile as [content_type Hfile].
  rewrite Hfield in Hfile. discriminate Hfile.
Qed.

(** A file-bearing part leaves the fields as they were and is logged. *)
Lemma read_part_file (fields : gmap string string) (errors : list string)
    (field : string) (groups : list string) :
  re_match file_pattern field = Some groups ->
  read_part (fields, errors) field
  = (fields, errors ++ ["We Don't Handle Files In Multipart Request Yet."]).
Proof.
  intros Hfile. unfold read_part.
  rewrite (file_part_is_no_field _ _ Hfile), Hfile. reflexivity.
Qed.

End Matching.

(** ** Properties of [read_multipart_form_data] *)

(** C10 fails on the code: for a form with the one field [a], the group the
    sources call FieldName takes the quote that closes the name with it,
    and the key of the mapping is the name followed by that quote. *)
Theorem read_multipart_form_data_field_name :
  read_multipart_form_data Sample.form_content_type Sample.form_body
  = (Returned {[ ("a" ++ Re.DQUOTE)%string := "1" ]}, []).
Proof. vm_compute. reflexivity. Qed.

(** A content type that declares no boundary: the separator of [split] is
    empty, and the call raises. *)
Example read_multipart_form_data_no_boundary :
  read_multipart_form_data "multipart/form-data" Sample.form_body
  = (Raised (Error "ValueError" "empty separator"), []).
Proof. reflexivity. Qed.

(** ** Every way through [handle_http] *)

Section Paths.
Context {E : Env}.

(** A dispatch follows one of the ways of [http_path]. *)
Lemma handle_http_path (config : Config) (scope : Scope) (st : State) :
  http_path config scope st (handle_http config scope st).
Proof.
  destruct (find_endpoint config (Request_path (Request_init scope)))
    as [[endpoint|] found_path] eqn:Hfind.
  2: { replace (handle_http config scope st)
         with (Returned tt, after_read_body scope st,
               [MonitoringBefore; BodyRead] ++ exception_frames 404 "Not Found").
       - econstructor; exact Hfind.
       - unfold handle_http. rewrite Hfind. reflexivity. }
  destruct (call_before_middlewares (middlewares config) (Request_init scope)
              (after_read_body scope st))
    as [[[request'|[a|cls msg]] st1] tb] eqn:Hbefore.
  - destruct (conforms_http endpoint) eqn:Hconf.
    + destruct (endpoint_handler endpoint request'
                  (collect_path_variables (Request_path (Request_init scope)) found_path)
                  (world st1)) as [[response|[a|cls msg]] w] eqn:Hcall.
      * destruct (call_after_middlewares (reversed_middlewares config) response
                    {| world := w; websocket_connections := websocket_connections st1 |})
          as [[result st2] ta] eqn:Hafter.
        replace (handle_http config scope st)
          with (after_chain_outcome result, st2,
                [MonitoringBefore; BodyRead]
                ++ (tb ++ [EndpointCalled (endpoint_name endpoint) request'
                             (collect_path_variables (Request_path (Request_init scope))
                                found_path)]) ++ ta).
        -- eapply path_after_chain; [exact Hfind | | exact Hafter].
           eapply enters_handled; eassumption.
        -- unfold handle_http. rewrite Hfind.
           unfold after_read_body in Hbefore. monad_step. rewrite Hbefore. simpl.
           destruct endpoint as [name wrapped f | name api ws f inst];
             simpl in Hconf, Hcall; subst;
             unfold call_endpoint; monad_step; rewrite Hcall; simpl;
             rewrite Hafter; destruct result; simpl;
             rewrite ?app_nil_r, <- ?app_assoc; reflexivity.
      * destruct (call_after_middlewares (reversed_middlewares config) (handle_exceptions a)
                    {| world := w; websocket_connections := websocket_connections st1 |})
          as [[result st2] ta] eqn:Hafter.
        replace (handle_http config scope st)
          with (after_chain_outcome result, st2,
                [MonitoringBefore; BodyRead]
                ++ (tb ++ [EndpointCalled (endpoint_name endpoint) request'
                             (collect_path_variables (Request_path (Request_init scope))
                                found_path)]) ++ ta).
        -- eapply path_after_chain; [exact Hfind | | exact Hafter].
           eapply enters_handler_refused; eassumption.
        -- unfold handle_http. rewrite Hfind.
           unfold after_read_body in Hbefore. monad_step. rewrite Hbefore. simpl.
           destruct endpoint as [name wrapped f | name api ws f inst];
             simpl in Hconf, Hcall; subst;
             unfold call_endpoint; monad_step; rewrite Hcall; simpl;
             rewrite Hafter; destruct result; simpl;
             rewrite ?app_nil_r, <- ?app_assoc; reflexivity.
      * destruct (derives_from_Exception cls) eqn:Hclass.
        -- rewrite (handle_http_handler_defect config scope st st1 endpoint found_path cls msg
                      request' tb w Hfind Hconf Hbefore Hcall Hclass).
           eapply path_handler_defect; eassumption.
        -- rewrite (handle_http_handler_escape config scope st st1 endpoint found_path cls msg
                      request' tb w Hfind Hconf Hbefore Hcall Hclass).
           eapply path_handler_escape; eassumption.
    + rewrite (handle_http_not_implemented config scope st st1 endpoint found_path
                 request' tb Hfind Hconf Hbefore).
      eapply path_not_implemented; eassumption.
  - destruct (call_after_middlewares (reversed_middlewares config) (handle_exceptions a) st1)
      as [[result st2] ta] eqn:Hafter.
    replace (handle_http config scope st)
      with (after_chain_outcome result, st2, [MonitoringBefore; BodyRead] ++ tb ++ ta).
    + eapply path_after_chain; [exact Hfind | | exact Hafter].
      eapply enters_refused; eassumption.
    + unfold handle_http. rewrite Hfind.
      unfold after_read_body in Hbefore. monad_step. rewrite Hbefore. simpl.
      rewrite Hafter; destruct result; simpl; rewrite ?app_nil_r; reflexivity.
  - destruct (derives_from_Exception cls) eqn:Hclass.
    + rewrite (handle_http_before_defect config scope st st1 endpoint found_path cls msg tb
                 Hfind Hbefore Hclass).
      eapply path_before_defect; eassumption.
    + rewrite (handle_http_before_escape config scope st st1 endpoint found_path cls msg tb
                 Hfind Hbefore Hclass).
      eapply path_before_escape; eassumption.
Qed.

End Paths.

(** ** What every HTTP dispatch keeps *)

Section Invariants.
Context {E : Env}.

(** The loop over the [before] hooks calls them in the order of the chain,
    all of them when it completes, and touches neither the connections nor
    the monitoring. *)
Lemma call_before_middlewares_order (mws : list Middleware) :
  forall (request : Request) (st : State) (o : Outcome Request) (st' : State) (t : list Event),
    call_before_middlewares mws request st = (o, st', t) ->
    websocket_connections st' = websocket_connections st /\
    registrations t = [] /\ close_codes t = [] /\ monitored t = [] /\
    before_calls t `prefix_of` map mw_name mws /\
    (forall r, o = Returned r -> before_calls t = map mw_name mws).
Proof.
  induction mws as [|m rest IH]; intros request st o st' t Hrun; simpl in Hrun.
  - injection Hrun as <- <- <-. repeat split; reflexivity.
  - revert Hrun. monad_step.
    destruct (before m request (world st)) as [[request1|e] w]; simpl.
    + destruct (call_before_middlewares rest request1 _) as [[o1 st1] t1] eqn:Hrest.
      intros Hrun. injection Hrun as <- <- <-.
      destruct (IH _ _ _ _ _ Hrest) as (Hreg & Hr & Hc & Hm & Hpre & Hall).
      simpl in Hreg. simpl. rewrite Hr, Hc, Hm.
      repeat split; try assumption; try reflexivity.
      * apply prefix_cons. exact Hpre.
      * intros r ->. rewrite (Hall r eq_refl). reflexivity.
    + intros Hrun. injection Hrun as <- <- <-. simpl.
      repeat split; try reflexivity.
      * exists (map mw_name rest). reflexivity.
      * intros r Hr. discriminate Hr.
Qed.

(** The loop over the [after] hooks calls them in the order of its list,
    all of them when it completes, touches neither the connections nor the
    monitoring, and lets no [APIException] out. *)
Lemma call_after_middlewares_order (mws : list Middleware) :
  forall (response : Response) (st : State) (o : Outcome Response) (st' : State)
         (t : list Event),
    call_after_middlewares mws response st = (o, st', t) ->
    websocket_connections st' = websocket_connections st /\
    registrations t = [] /\ close_codes t = [] /\ monitored t = [] /\
    map fst (after_calls t) `prefix_of` map mw_name mws /\
    (forall r, o = Returned r -> map fst (after_calls t) = map mw_name mws) /\
    (forall a, o <> Raised (API a)).
Proof.
  induction mws as [|m rest IH]; intros response st o st' t Hrun; simpl in Hrun.
  - injection Hrun as <- <- <-. repeat split; try reflexivity; discriminate.
  - revert Hrun. monad_step.
    destruct (after m response (world st)) as [[response1|[a|cls msg]] w]; simpl.
    + destruct (call_after_middlewares rest response1 _) as [[o1 st1] t1] eqn:Hrest.
      intros Hrun. injection Hrun as <- <- <-.
      destruct (IH _ _ _ _ _ Hrest) as (Hreg & Hr & Hc & Hm & Hpre & Hall & Hapi).
      simpl in Hreg. simpl. rewrite Hr, Hc, Hm.
      repeat split; try assumption; try reflexivity.
      * apply prefix_cons. exact Hpre.
      * intros r ->. rewrite (Hall r eq_refl). reflexivity.
    + destruct (call_after_middlewares rest (handle_exceptions a) _)
        as [[o1 st1] t1] eqn:Hrest.
      intros Hrun. injection Hrun as <- <- <-.
      destruct (IH _ _ _ _ _ Hrest) as (Hreg & Hr & Hc & Hm & Hpre & Hall & Hapi).
      simpl in Hreg. simpl. rewrite Hr, Hc, Hm.
      repeat split; try assumption; try reflexivity.
      * apply prefix_cons. exact Hpre.
      * intros r ->. rewrite (Hall r eq_refl). reflexivity.
    + intros Hrun. injection Hrun as <- <- <-. simpl.
      repeat split; try reflexivity; try discriminate.
      exists (map mw_name rest). reflexivity.
Qed.

(** X1. Every HTTP dispatch either returns after sending exactly one
    start frame, with the content type [application/json] as its only
    header, followed by one body frame, or raises an exception that is not
    an [APIException] after sending no frame at all. *)
Theorem handle_http_frames_all_or_nothing (config : Config) (scope : Scope) (st : State) :
  let r := handle_http config scope st in
  (fst (fst r) = Returned tt /\
   exists status body,
     frames (snd r)
     = [HttpResponseStart status [("content-type", "application/json")];
        HttpResponseBody body]) \/
  (exists cls msg, fst (fst r) = Raised (Error cls msg) /\ frames (snd r) = []).
Proof.
  intros r. subst r.
  destruct (handle_http_path config scope st)
    as [fp Hfind
       | ep fp cls msg st1 tb Hfind Hbefore Hclass
       | ep fp cls msg st1 tb Hfind Hbefore Hclass
       | ep fp request' st1 tb Hfind Hbefore Hconf
       | ep fp cls msg request' st1 tb w Hfind Hbefore Hconf Hcall Hclass
       | ep fp cls msg request' st1 tb w Hfind Hbefore Hconf Hcall Hclass
       | ep fp t0 response st1 st2 result ta Hfind Henter Hafter].
  - left. split; [reflexivity|]. eexists _, _. reflexivity.
  - left. split; [reflexivity|].
    pose proof (call_before_middlewares_quiet (middlewares config) (Request_init scope)
                  (after_read_body scope st)) as Hq.
    rewrite Hbefore in Hq. simpl in Hq. destruct Hq as (_ & _ & Hf & _).
    eexists _, _. unfold frames in *. simpl. rewrite omap_app, Hf. reflexivity.
  - right. exists cls, msg. split; [reflexivity|].
    pose proof (call_before_middlewares_quiet (middlewares config) (Request_init scope)
                  (after_read_body scope st)) as Hq.
    rewrite Hbefore in Hq. simpl in Hq. destruct Hq as (_ & _ & Hf & _).
    unfold frames in *. cbn [snd]. rewrite !omap_app, Hf. reflexivity.
  - left. split; [reflexivity|].
    pose proof (call_before_middlewares_quiet (middlewares config) (Request_init scope)
                  (after_read_body scope st)) as Hq.
    rewrite Hbefore in Hq. simpl in Hq. destruct Hq as (_ & _ & Hf & _).
    eexists _, _. unfold frames in *. simpl. rewrite omap_app, Hf. reflexivity.
  - left. split; [reflexivity|].
    pose proof (call_before_middlewares_quiet (middlewares config) (Request_init scope)
                  (after_read_body scope st)) as Hq.
    rewrite Hbefore in Hq. simpl in Hq. destruct Hq as (_ & _ & Hf & _).
    eexists _, _. unfold frames in *. simpl. rewrite omap_app, Hf. reflexivity.
  - right. exists cls, msg. split; [reflexivity|].
    pose proof (call_before_middlewares_quiet (middlewares config) (Request_init scope)
                  (after_read_body scope st)) as Hq.
    rewrite Hbefore in Hq. simpl in Hq. destruct Hq as (_ & _ & Hf & _).
    unfold frames in *. cbn [snd]. rewrite !omap_app, Hf. reflexivity.
  - right.
    pose proof (call_after_middlewares_quiet (reversed_middlewares config) response st1) as Hq.
    rewrite Hafter in Hq. simpl in Hq. destruct Hq as (_ & _ & Hfa & _).
    destruct (call_after_middlewares_order _ _ _ _ _ _ Hafter) as (_ & _ & _ & _ & _ & _ & Hapi).
    assert (Hf0 : frames t0 = []).
    { destruct Henter as [a st1 tb Hbefore
                         | request' st1 tb a w Hbefore Hconf Hcall
                         | request' st1 tb resp w Hbefore Hconf Hcall];
        pose proof (call_before_middlewares_quiet (middlewares config) (Request_init scope)
                      (after_read_body scope st)) as Hq;
        rewrite Hbefore in Hq; simpl in Hq; destruct Hq as (_ & _ & Hf & _);
        unfold frames in *; rewrite ?omap_app, Hf; reflexivity. }
    assert (Hframes : frames ([MonitoringBefore; BodyRead] ++ t0 ++ ta) = []).
    { unfold frames in *. simpl. rewrite omap_app, Hf0, Hfa. reflexivity. }
    destruct result as [response'|[a|cls msg]]; simpl.
    + eexists _, _. split; [reflexivity | exact Hframes].
    + exfalso. exact (Hapi a eq_refl).
    + eexists _, _. split; [reflexivity | exact Hframes].
Qed.

(** X2. No HTTP dispatch touches the websocket side: the table of live
    connections is left as it was, nothing is inserted into it and no
    connection is closed. *)
Theorem handle_http_leaves_connections (config : Config) (scope : Scope) (st : State) :
  let r := handle_http config scope st in
  websocket_connections (snd (fst r)) = websocket_connections st /\
  registrations (snd r) = [] /\
  close_codes (snd r) = [].
Proof.
  intros r. subst r.
  destruct (handle_http_path config scope st)
    as [fp Hfind
       | ep fp cls msg st1 tb Hfind Hbefore Hclass
       | ep fp cls msg st1 tb Hfind Hbefore Hclass
       | ep fp request' st1 tb Hfind Hbefore Hconf
       | ep fp cls msg request' st1 tb w Hfind Hbefore Hconf Hcall Hclass
       | ep fp cls msg request' st1 tb w Hfind Hbefore Hconf Hcall Hclass
       | ep fp t0 response st1 st2 result ta Hfind Henter Hafter].
  - repeat split; reflexivity.
  - destruct (call_before_middlewares_order _ _ _ _ _ _ Hbefore) as (Hreg & Hr & Hc & _).
    unfold registrations, close_codes in *. simpl. rewrite !omap_app, Hr, Hc.
    repeat split; try reflexivity. exact Hreg.
  - destruct (call_before_middlewares_order _ _ _ _ _ _ Hbefore) as (Hreg & Hr & Hc & _).
    unfold registrations, close_codes in *. cbn [fst snd]. rewrite !omap_app, Hr, Hc.
    repeat split; try reflexivity. exact Hreg.
  - destruct (call_before_middlewares_order _ _ _ _ _ _ Hbefore) as (Hreg & Hr & Hc & _).
    unfold registrations, close_codes in *. simpl. rewrite !omap_app, Hr, Hc.
    repeat split; try reflexivity. exact Hreg.
  - destruct (call_before_middlewares_order _ _ _ _ _ _ Hbefore) as (Hreg & Hr & Hc & _).
    unfold registrations, close_codes in *. simpl. rewrite !omap_app, Hr, Hc.
    repeat split; try reflexivity. exact Hreg.
  - destruct (call_before_middlewares_order _ _ _ _ _ _ Hbefore) as (Hreg & Hr & Hc & _).
    unfold registrations, close_codes in *. cbn [fst snd]. rewrite !omap_app, Hr, Hc.
    repeat split; try reflexivity. exact Hreg.
  - destruct (call_after_middlewares_order _ _ _ _ _ _ Hafter) as (Hrega & Hra & Hca & _).
    assert (H0 : websocket_connections st1 = websocket_connections st /\
                 registrations t0 = [] /\ close_codes t0 = []).
    { destruct Henter as [a st1 tb Hbefore
                         | request' st1 tb a w Hbefore Hconf Hcall
                         | request' st1 tb resp w Hbefore Hconf Hcall];
        destruct (call_before_middlewares_order _ _ _ _ _ _ Hbefore) as (Hreg & Hr & Hc & _);
        unfold registrations, close_codes in *; rewrite ?omap_app, Hr, Hc;
        repeat split; try reflexivity; exact Hreg. }
    destruct H0 as (Hreg0 & Hr0 & Hc0).
    unfold registrations, close_codes in *. simpl. rewrite !omap_app, Hr0, Hc0, Hra, Hca.
    repeat split; try reflexivity. simpl. rewrite Hrega. exact Hreg0.
Qed.

(** X3. In every HTTP dispatch the [before] hooks called are a prefix of
    the chain and the [after] hooks called a prefix of
    [config['reversed_middlewares']]; the endpoint is called at most once,
    and only after every [before] hook of the chain was called. *)
Theorem handle_http_hooks_in_order (config : Config) (scope : Scope) (st : State) :
  let t := snd (handle_http config scope st) in
  before_calls t `prefix_of` map mw_name (middlewares config) /\
  map fst (after_calls t) `prefix_of` map mw_name (reversed_middlewares config) /\
  (endpoint_calls t = [] \/
   exists name, endpoint_calls t = [name] /\
                before_calls t = map mw_name (middlewares config)).
Proof.
  intros t. subst t.
  destruct (handle_http_path config scope st)
    as [fp Hfind
       | ep fp cls msg st1 tb Hfind Hbefore Hclass
       | ep fp cls msg st1 tb Hfind Hbefore Hclass
       | ep fp request' st1 tb Hfind Hbefore Hconf
       | ep fp cls msg request' st1 tb w Hfind Hbefore Hconf Hcall Hclass
       | ep fp cls msg request' st1 tb w Hfind Hbefore Hconf Hcall Hclass
       | ep fp t0 response st1 st2 result ta Hfind Henter Hafter].
  - simpl. split; [apply prefix_nil|]. split; [apply prefix_nil|]. left. reflexivity.
  - destruct (call_before_middlewares_order _ _ _ _ _ _ Hbefore) as (_ & _ & _ & _ & Hpre & _).
    pose proof (call_before_middlewares_quiet (middlewares config) (Request_init scope)
                  (after_read_body scope st)) as Hq.
    rewrite Hbefore in Hq. simpl in Hq. destruct Hq as (Ha & He & _).
    unfold before_calls, after_calls, endpoint_calls in *. simpl.
    rewrite !omap_app, Ha, He. simpl. rewrite app_nil_r.
    split; [exact Hpre|]. split; [apply prefix_nil|]. left. reflexivity.
  - destruct (call_before_middlewares_order _ _ _ _ _ _ Hbefore) as (_ & _ & _ & _ & Hpre & _).
    pose proof (call_before_middlewares_quiet (middlewares config) (Request_init scope)
                  (after_read_body scope st)) as Hq.
    rewrite Hbefore in Hq. simpl in Hq. destruct Hq as (Ha & He & _).
    unfold before_calls, after_calls, endpoint_calls in *. cbn [snd].
    rewrite !omap_app, Ha, He. simpl.
    split; [exact Hpre|]. split; [apply prefix_nil|]. left. reflexivity.
  - destruct (call_before_middlewares_order _ _ _ _ _ _ Hbefore) as (_ & _ & _ & _ & Hpre & _).
    pose proof (call_before_middlewares_quiet (middlewares config) (Request_init scope)
                  (after_read_body scope st)) as Hq.
    rewrite Hbefore in Hq. simpl in Hq. destruct Hq as (Ha & He & _).
    unfold before_calls, after_calls, endpoint_calls in *. simpl.
    rewrite !omap_app, Ha, He. simpl. rewrite app_nil_r.
    split; [exact Hpre|]. split; [apply prefix_nil|]. left. reflexivity.
  - destruct (call_before_middlewares_order _ _ _ _ _ _ Hbefore)
      as (_ & _ & _ & _ & Hpre & Hall).
    pose proof (call_before_middlewares_quiet (middlewares config) (Request_init scope)
                  (after_read_body scope st)) as Hq.
    rewrite Hbefore in Hq. simpl in Hq. destruct Hq as (Ha & He & _).
    unfold before_calls, after_calls, endpoint_calls in *. simpl.
    rewrite !omap_app, Ha, He. simpl. rewrite app_nil_r.
    split; [exact Hpre|]. split; [apply prefix_nil|].
    right. eexists. split; [reflexivity | exact (Hall _ eq_refl)].
  - destruct (call_before_middlewares_order _ _ _ _ _ _ Hbefore)
      as (_ & _ & _ & _ & Hpre & Hall).
    pose proof (call_before_middlewares_quiet (middlewares config) (Request_init scope)
                  (after_read_body scope st)) as Hq.
    rewrite Hbefore in Hq. simpl in Hq. destruct Hq as (Ha & He & _).
    unfold before_calls, after_calls, endpoint_calls in *. cbn [snd].
    rewrite !omap_app, Ha, He. simpl. rewrite app_nil_r.
    split; [exact Hpre|]. split; [apply prefix_nil|].
    right. eexists. split; [reflexivity | exact (Hall _ eq_refl)].
  - destruct (call_after_middlewares_order _ _ _ _ _ _ Hafter)
      as (_ & _ & _ & _ & Hprea & _).
    pose proof (call_after_middlewares_quiet (reversed_middlewares config) response st1) as Hq.
    rewrite Hafter in Hq. simpl in Hq. destruct Hq as (Hba & Hea & _).
    destruct Henter as [a st1 tb Hbefore
                       | request' st1 tb a w Hbefore Hconf Hcall
                       | request' st1 tb resp w Hbefore Hconf Hcall];
      destruct (call_before_middlewares_order _ _ _ _ _ _ Hbefore)
        as (_ & _ & _ & _ & Hpre & Hall);
      pose proof (call_before_middlewares_quiet (middlewares config) (Request_init scope)
                    (after_read_body scope st)) as Hq;
      rewrite Hbefore in Hq; simpl in Hq; destruct Hq as (Ha & He & _);
      unfold before_calls, after_calls, endpoint_calls in *; simpl;
      rewrite !omap_app, ?Ha, ?He, ?Hba, ?Hea; simpl; rewrite ?app_nil_r;
      (split; [exact Hpre|]); (split; [exact Hprea|]).
    + left. reflexivity.
    + right. eexists. split; [reflexivity | exact (Hall _ eq_refl)].
    + right. eexists. split; [reflexivity | exact (Hall _ eq_refl)].
Qed.

(** X4. A dispatch through a chain of any length in which every [before]
    hook returns, the endpoint passes the check and returns a response, and
    no [after] hook raises an exception other than an [APIException]: every
    [before] hook is called in the order of the chain, then the endpoint,
    once, on the request the last [before] hook returned and on the path
    variables of the path the request came with, then every [after] hook
    in the reverse order, the first of them on the response of the
    endpoint. *)
Theorem handled_dispatch_runs_whole_chain
    (mws : list Middleware) (urls : string -> option Endpoint * string) (monitor : bool)
    (scope : Scope) (st st1 : State) (endpoint : Endpoint) (found_path : string)
    (request' : Request) (response : Response) (tb : list Event) (w : World) :
  let config := load_configs mws urls monitor in
  let path_variables :=
    collect_path_variables (Request_path (Request_init scope)) found_path in
  urls (Request_path (Request_init scope)) = (Some endpoint, found_path) ->
  conforms_http endpoint = true ->
  call_before_middlewares mws (Request_init scope) (after_read_body scope st)
  = (Returned request', st1, tb) ->
  endpoint_handler endpoint request' path_variables (world st1) = (Returned response, w) ->
  (forall m response0 w0 e w',
      m ∈ mws -> after m response0 w0 = (Raised e, w') -> exists a, e = API a) ->
  let t := snd (handle_http config scope st) in
  before_calls t = map mw_name mws /\
  EndpointCalled (endpoint_name endpoint) request' path_variables ∈ t /\
  endpoint_calls t = [endpoint_name endpoint] /\
  map fst (after_calls t) = rev (map mw_name mws) /\
  head (after_calls t) = head (map (fun m => (mw_name m, response)) (rev mws)).
Proof.
  intros config pv Hfind Hconf Hbefore Hcall Hafter t.
  assert (Hafter' : forall m response0 w0 e w',
             m ∈ rev mws -> after m response0 w0 = (Raised e, w') -> exists a, e = API a).
  { intros m response0 w0 e w' Hin. apply Hafter.
    apply list_elem_of_In, in_rev, list_elem_of_In. exact Hin. }
  destruct (call_after_middlewares_all _ Hafter' response
              {| world := w; websocket_connections := websocket_connections st1 |})
    as (response' & st2 & ta & Hrun & Hnames & Hhead & Hb & He).
  subst t.
  rewrite (handle_http_handled config scope st st1 st2 endpoint found_path request'
             response response' tb ta w Hfind Hconf Hbefore Hcall Hrun).
  destruct (call_before_middlewares_order _ _ _ _ _ _ Hbefore) as (_ & _ & _ & _ & _ & Hall).
  pose proof (call_before_middlewares_quiet mws (Request_init scope)
                (after_read_body scope st)) as Hq.
  rewrite Hbefore in Hq. simpl in Hq. destruct Hq as (Ha & Hen & _).
  cbn [snd].
  match goal with
  | |- context [?e :: ta] => change (e :: ta) with ([e] ++ ta)
  end.
  split; [|split; [|split; [|split]]].
  - unfold before_calls in *. rewrite !omap_app, (Hall _ eq_refl), Hb. simpl.
    rewrite app_nil_r. reflexivity.
  - right. right. apply elem_of_app. right. left.
  - unfold endpoint_calls in *. rewrite !omap_app, Hen, He. reflexivity.
  - unfold after_calls in *. rewrite !omap_app, Ha. simpl. rewrite Hnames, map_rev.
    reflexivity.
  - unfold after_calls in *. rewrite !omap_app, Ha. simpl. exact Hhead.
Qed.

(** The [before] loop completed, the endpoint passes the check and raises
    an [APIException], and the [after] loop completed. *)
Lemma handle_http_handler_refused (config : Config) (scope : Scope) (st st1 st2 : State)
    (endpoint : Endpoint) (found_path : string) (request' : Request)
    (a : APIException) (response' : Response) (tb ta : list Event) (w : World) :
  let path_variables :=
    collect_path_variables (Request_path (Request_init scope)) found_path in
  find_endpoint config (Request_path (Request_init scope)) = (Some endpoint, found_path) ->
  conforms_http endpoint = true ->
  call_before_middlewares (middlewares config) (Request_init scope) (after_read_body scope st)
  = (Returned request', st1, tb) ->
  endpoint_handler endpoint request' path_variables (world st1) = (Raised (API a), w) ->
  call_after_middlewares (reversed_middlewares config) (handle_exceptions a)
    {| world := w; websocket_connections := websocket_connections st1 |}
  = (Returned response', st2, ta) ->
  snd (handle_http config scope st)
  = [MonitoringBefore; BodyRead] ++ tb
    ++ [EndpointCalled (endpoint_name endpoint) request' path_variables] ++ ta.
Proof.
  intros pv Hfind Hconf Hbefore Hcall Hafter. unfold handle_http. rewrite Hfind.
  unfold after_read_body in Hbefore. monad_step. rewrite Hbefore. simpl.
  destruct endpoint as [name wrapped f | name api ws f inst]; simpl in Hconf, Hcall; subst;
    unfold call_endpoint; monad_step; fold pv; rewrite Hcall; simpl;
    rewrite Hafter; simpl; rewrite ?app_nil_r, <- ?app_assoc; reflexivity.
Qed.

(** X5. A dispatch through a chain of any length whose endpoint, once
    called, raises an [APIException], and none of whose [after] hooks
    raises an exception of another class: every [after] hook is called, in
    the reverse order of the chain, the first of them on the response the
    exception is mapped to, and nothing is logged. *)
Theorem handler_refusal_runs_after_chain
    (mws : list Middleware) (urls : string -> option Endpoint * string) (monitor : bool)
    (scope : Scope) (st st1 : State) (endpoint : Endpoint) (found_path : string)
    (request' : Request) (a : APIException) (tb : list Event) (w : World) :
  let config := load_configs mws urls monitor in
  urls (Request_path (Request_init scope)) = (Some endpoint, found_path) ->
  conforms_http endpoint = true ->
  call_before_middlewares mws (Request_init scope) (after_read_body scope st)
  = (Returned request', st1, tb) ->
  endpoint_handler endpoint request'
    (collect_path_variables (Request_path (Request_init scope)) found_path) (world st1)
  = (Raised (API a), w) ->
  (forall m response0 w0 e w',
      m ∈ mws -> after m response0 w0 = (Raised e, w') -> exists a', e = API a') ->
  let t := snd (handle_http config scope st) in
  map fst (after_calls t) = rev (map mw_name mws) /\
  head (after_calls t) = head (map (fun m => (mw_name m, handle_exceptions a)) (rev mws)) /\
  logged t = [].
Proof.
  intros config Hfind Hconf Hbefore Hcall Hafter t.
  assert (Hafter' : forall m response0 w0 e w',
             m ∈ rev mws -> after m response0 w0 = (Raised e, w') -> exists a', e = API a').
  { intros m response0 w0 e w' Hin. apply Hafter.
    apply list_elem_of_In, in_rev, list_elem_of_In. exact Hin. }
  destruct (call_after_middlewares_all _ Hafter' (handle_exceptions a)
              {| world := w; websocket_connections := websocket_connections st1 |})
    as (response' & st2 & ta & Hrun & Hnames & Hhead & Hb & He).
  pose proof (call_after_middlewares_quiet (rev mws) (handle_exceptions a)
                {| world := w; websocket_connections := websocket_connections st1 |}) as Hqa.
  rewrite Hrun in Hqa. simpl in Hqa. destruct Hqa as (_ & _ & _ & Hla).
  pose proof (call_before_middlewares_quiet mws (Request_init scope)
                (after_read_body scope st)) as Hq.
  rewrite Hbefore in Hq. simpl in Hq. destruct Hq as (Ha & Hen & _ & Hl).
  subst t.
  rewrite (handle_http_handler_refused config scope st st1 st2 endpoint found_path request'
             a response' tb ta w Hfind Hconf Hbefore Hcall Hrun).
  split; [|split].
  - unfold after_calls in *. rewrite !omap_app, Ha. simpl. rewrite Hnames, map_rev.
    reflexivity.
  - unfold after_calls in *. rewrite !omap_app, Ha. simpl. exact Hhead.
  - unfold logged in *. rewrite !omap_app, Hl, Hla. reflexivity.
Qed.

End Invariants.

(** ** More about the middleware loops and [http_response] *)

Section Loops.
Context {E : Env}.

(** The loop over a chain is the loop over its head followed by the loop
    over its tail, on the request the head leaves. *)
Lemma call_before_middlewares_app (pre post : list Middleware) :
  forall (request : Request) (st : State),
    call_before_middlewares (pre ++ post) request st
    = bind (call_before_middlewares pre request) (call_before_middlewares post) st.
Proof.
  induction pre as [|m pre IH]; intros request st.
  - simpl. unfold bind, ret.
    destruct (call_before_middlewares post request st) as [[o st'] t]. reflexivity.
  - cbn [app call_before_middlewares]. unfold bind, call.
    destruct (before m request (world st)) as [[request1|e] w]; [|reflexivity].
    rewrite IH. unfold bind.
    destruct (call_before_middlewares pre request1 _) as [[[request2|e] st1] t1];
      [|reflexivity].
    destruct (call_before_middlewares post request2 st1) as [[o st2] t2].
    reflexivity.
Qed.

(** X6. When the [before] hook of a middleware raises an exception that is
    not an [APIException] and whose class derives from [Exception], the
    hooks before it having returned: no later [before] hook, no endpoint
    and no [after] hook is called, the cleaned traceback is logged at the
    critical level, a 500 is framed and the dispatch returns. *)
Theorem before_hook_defect_frames_500
    (config : Config) (scope : Scope) (st st1 : State)
    (endpoint : Endpoint) (found_path cls msg : string)
    (pre post : list Middleware) (m : Middleware)
    (request' : Request) (tb : list Event) (w : World) :
  find_endpoint config (Request_path (Request_init scope)) = (Some endpoint, found_path) ->
  middlewares config = pre ++ m :: post ->
  call_before_middlewares pre (Request_init scope) (after_read_body scope st)
  = (Returned request', st1, tb) ->
  before m request' (world st1) = (Raised (Error cls msg), w) ->
  derives_from_Exception cls = true ->
  let r := handle_http config scope st in
  fst (fst r) = Returned tt /\
  before_calls (snd r) = map mw_name pre ++ [mw_name m] /\
  endpoint_calls (snd r) = [] /\
  after_calls (snd r) = [] /\
  logged (snd r) = [(CRITICAL, clean_traceback_message (Error cls msg))] /\
  frames (snd r)
  = [HttpResponseStart 500 [("content-type", "application/json")];
     HttpResponseBody (Some (json_dumps (PyDict [("detail", PyStr "Internal Server Error")])))].
Proof.
  intros Hfind Hchain Hpre Hm Hclass r. subst r.
  assert (Hbefore :
    call_before_middlewares (middlewares config) (Request_init scope) (after_read_body scope st)
    = (Raised (Error cls msg),
       {| world := w; websocket_connections := websocket_connections st1 |},
       tb ++ [BeforeCalled (mw_name m) request'])).
  { rewrite Hchain, call_before_middlewares_app. unfold bind at 1. rewrite Hpre.
    cbn [call_before_middlewares]. unfold bind, call. rewrite Hm. reflexivity. }
  rewrite (handle_http_before_defect config scope st _ endpoint found_path cls msg _
             Hfind Hbefore Hclass).
  destruct (call_before_middlewares_order _ _ _ _ _ _ Hpre) as (_ & _ & _ & _ & _ & Hall).
  specialize (Hall _ eq_refl).
  pose proof (call_before_middlewares_quiet pre (Request_init scope)
                (after_read_body scope st)) as Hq.
  rewrite Hpre in Hq. simpl in Hq. destruct Hq as (Ha & He & Hf & Hl).
  cbn [fst snd]. split; [reflexivity|].
  unfold before_calls, endpoint_calls, after_calls, logged, frames in *.
  rewrite !omap_app, Hall, Ha, He, Hf, Hl.
  repeat split; simpl; rewrite ?app_nil_r; reflexivity.
Qed.

(** X7. The loop over the [after] hooks hands each hook what the one before
    it left: the response it returned, or the response its [APIException]
    is mapped to; an exception of another class ends the loop. *)
Theorem after_hooks_thread_the_response
    (m m' : Middleware) (rest : list Middleware) (response : Response) (st : State) :
  let t := snd (call_after_middlewares (m :: m' :: rest) response st) in
  match after m response (world st) with
  | (Returned response1, _) =>
      firstn 2 (after_calls t) = [(mw_name m, response); (mw_name m', response1)]
  | (Raised (API a), _) =>
      firstn 2 (after_calls t) = [(mw_name m, response); (mw_name m', handle_exceptions a)]
  | (Raised (Error _ _), _) => after_calls t = [(mw_name m, response)]
  end.
Proof.
  intros t. subst t. cbn [call_after_middlewares]. monad_step.
  destruct (after m response (world st)) as [[response1|[a|cls msg]] w]; simpl.
  - destruct (after m' response1 w) as [[response2|[a'|cls' msg']] w']; simpl;
      try reflexivity;
      destruct (call_after_middlewares rest _ _) as [[o st2] t2]; reflexivity.
  - destruct (after m' (handle_exceptions a) w) as [[response2|[a'|cls' msg']] w']; simpl;
      try reflexivity;
      destruct (call_after_middlewares rest _ _) as [[o st2] t2]; reflexivity.
  - reflexivity.
Qed.

(** *** [http_response] *)

(** The note to the monitoring that precedes the frames. *)
Lemma http_response_frames_exception (status_code : Z) (text : string)
    (mon : option Monitoring) (body : option string) (st : State) :
  status_text status_code = Some text ->
  http_response_bound status_code mon body true st
  = (Returned tt, st,
     match mon with Some _ => [MonitoringAfter (StatusCode status_code)] | None => [] end
     ++ [Sent (HttpResponseStart status_code [("content-type", "application/json")]);
         Sent (HttpResponseBody (Some (json_dumps (PyDict [("detail", PyStr text)]))))]).
Proof.
  intros Htext. unfold http_response_bound. rewrite Htext. destruct mon; reflexivity.
Qed.

(** X8. A call of [http_response] with [exception=True] and a status the
    table of status texts knows frames the detail of that text, whatever
    body the call passes and even for the status 204; the monitoring, when
    there is one, is told the status before the first frame is sent. *)
Theorem http_response_exception_overrides_body
    (kwargs : Kwargs) (status_code : Z) (text : string) (mon : option Monitoring)
    (st : State) :
  kw_others kwargs = [] ->
  kw_status_code kwargs = Some status_code ->
  kw_monitoring kwargs = Some mon ->
  kw_exception kwargs = Some true ->
  status_text status_code = Some text ->
  http_response kwargs st
  = (Returned tt, st,
     match mon with Some _ => [MonitoringAfter (StatusCode status_code)] | None => [] end
     ++ [Sent (HttpResponseStart status_code [("content-type", "application/json")]);
         Sent (HttpResponseBody (Some (json_dumps (PyDict [("detail", PyStr text)]))))]).
Proof.
  intros Hothers Hstatus Hmon Hexc Htext.
  unfold http_response. rewrite Hothers, Hstatus, Hmon, Hexc. simpl.
  apply http_response_frames_exception. exact Htext.
Qed.

(** X9. A call of [http_response] with [exception=True] and a status the
    table of status texts does not know raises the [KeyError] of the
    lookup, which carries the status code, before anything is done: the
    monitoring is not told and no frame is sent. *)
Theorem http_response_unknown_status_raises
    (kwargs : Kwargs) (status_code : Z) (mon : option Monitoring) (st : State) :
  kw_others kwargs = [] ->
  kw_status_code kwargs = Some status_code ->
  kw_monitoring kwargs = Some mon ->
  kw_exception kwargs = Some true ->
  status_text status_code = None ->
  http_response kwargs st = (Raised (Error "KeyError" (pretty status_code)), st, []).
Proof.
  intros Hothers Hstatus Hmon Hexc Htext.
  unfold http_response. rewrite Hothers, Hstatus, Hmon, Hexc. simpl.
  unfold http_response_bound. rewrite Htext. reflexivity.
Qed.

(** X10. A call of [http_response] that does not frame an exception, with a
    status other than 204 and a body other than the serialised [None]:
    the start frame carries the status and the body frame exactly the
    body that was passed, without a [body] key when none was; the
    monitoring, when there is one, is told the status first. *)
Theorem http_response_passes_body_on
    (kwargs : Kwargs) (status_code : Z) (mon : option Monitoring) (st : State) :
  kw_others kwargs = [] ->
  kw_status_code kwargs = Some status_code ->
  kw_monitoring kwargs = Some mon ->
  default false (kw_exception kwargs) = false ->
  status_code <> 204 ->
  default None (kw_body kwargs) <> Some "null" ->
  http_response kwargs st
  = (Returned tt, st,
     match mon with Some _ => [MonitoringAfter (StatusCode status_code)] | None => [] end
     ++ [Sent (HttpResponseStart status_code [("content-type", "application/json")]);
         Sent (HttpResponseBody (default None (kw_body kwargs)))]).
Proof.
  intros Hothers Hstatus Hmon Hexc H204 Hnull.
  unfold http_response. rewrite Hothers, Hstatus, Hmon, Hexc.
  unfold http_response_bound.
  destruct (Z.eqb_spec status_code 204) as [|_]; [contradiction|].
  case_bool_decide; [contradiction|]. simpl.
  destruct mon; destruct (default None (kw_body kwargs)); reflexivity.
Qed.

End Loops.

(** ** Properties of [read_body] *)

Section Body.

Lemma read_body_loop_final (pre : list Message) :
  forall (last : Message) (rest : list Message) (body : string),
    Forall (fun m => more_body m = true) pre ->
    more_body last = false ->
    read_body_loop (pre ++ last :: rest) body
    = Some ((body ++ payloads (pre ++ [last]))%string, rest).
Proof.
  induction pre as [|m pre IH]; intros last rest body Hpre Hlast.
  - cbn [app read_body_loop]. unfold more_body in Hlast. rewrite Hlast.
    unfold payloads. cbn [map Re.flatten fold_right].
    rewrite append_empty. reflexivity.
  - inversion Hpre as [|? ? Hm Hpre']; subst.
    cbn [app read_body_loop]. unfold more_body in Hm. rewrite Hm.
    rewrite (IH last rest _ Hpre' Hlast).
    unfold payloads. cbn [app map Re.flatten fold_right].
    rewrite append_assoc. reflexivity.
Qed.

(** X11. When the host delivers messages that announce more body, then one
    that does not (its [more_body] is false or missing), [read_body]
    returns the payloads of all of them, in order, a message without a
    [body] key counting for nothing, and takes no message after that one. *)
Theorem read_body_reads_up_to_the_final_message
    (pre : list Message) (last : Message) (rest : list Message) :
  Forall (fun m => more_body m = true) pre ->
  more_body last = false ->
  read_body (pre ++ last :: rest) = Some (payloads (pre ++ [last]), rest).
Proof.
  intros Hpre Hlast. unfold read_body.
  rewrite (read_body_loop_final pre last rest EmptyString Hpre Hlast). reflexivity.
Qed.

Lemma read_body_loop_none (receive : list Message) :
  forall body : string,
    read_body_loop receive body = None <-> Forall (fun m => more_body m = true) receive.
Proof.
  induction receive as [|m receive IH]; intros body.
  - split; [constructor | reflexivity].
  - cbn [read_body_loop]. fold (more_body m).
    destruct (more_body m) eqn:Hm.
    + rewrite IH. split.
      * intros Hall. constructor; assumption.
      * intros Hall. inversion Hall; assumption.
    + split; [discriminate|].
      intros Hall. inversion Hall as [|? ? Hm' _]; subst. congruence.
Qed.

(** X12. [read_body] is left without a body, awaiting a message that does
    not come, exactly when every message the host delivers announces more
    body. *)
Theorem read_body_awaits_the_final_message (receive : list Message) :
  read_body receive = None <-> Forall (fun m => more_body m = true) receive.
Proof. apply read_body_loop_none. Qed.

End Body.

(** ** More properties of [collect_path_variables] *)

Section Segments.
Local Arguments String.append : simpl nomatch.

Lemma removesuffix_cases (s : string) :
  s = Str.removesuffix "/" s \/ s = (Str.removesuffix "/" s ++ "/")%string.
Proof.
  induction s as [|c s IH]; [left; reflexivity|].
  cbn [Str.removesuffix].
  destruct (String.eqb_spec (String c s) "/") as [Heq|Hne].
  - right. rewrite Heq. reflexivity.
  - destruct IH as [IH|IH].
    + left. rewrite <- IH. reflexivity.
    + right. simpl. rewrite <- IH. reflexivity.
Qed.

Lemma removeprefix_cases (s : string) :
  s = Str.removeprefix "/" s \/ s = ("/" ++ Str.removeprefix "/" s)%string.
Proof.
  unfold Str.removeprefix. destruct s as [|c s]; [left; reflexivity|].
  cbn [Str.startswith].
  destruct (Ascii.eqb_spec "/" c) as [<-|Hne]; [|left; reflexivity].
  right. reflexivity.
Qed.

(** X13. [collect_path_variables] strips at most one separator from each
    end of a path: the path is what is left of it, with nothing or one
    separator in front and nothing or one separator behind. *)
Theorem strip_separators_at_most_one (path : string) :
  exists front back : string,
    (front = "" \/ front = "/") /\ (back = "" \/ back = "/") /\
    path = (front ++ strip_separators path ++ back)%string.
Proof.
  unfold strip_separators.
  destruct (removesuffix_cases path) as [Hs|Hs];
    destruct (removeprefix_cases (Str.removesuffix "/" path)) as [Hp|Hp].
  - exists "", "". split; [left; reflexivity|]. split; [left; reflexivity|].
    rewrite append_empty. simpl. rewrite <- Hp. exact Hs.
  - exists "/", "". split; [right; reflexivity|]. split; [left; reflexivity|].
    rewrite append_empty, <- Hp. exact Hs.
  - exists "", "/". split; [left; reflexivity|]. split; [right; reflexivity|].
    simpl. rewrite <- Hp. exact Hs.
  - exists "/", "/". split; [right; reflexivity|]. split; [right; reflexivity|].
    rewrite <- append_assoc, <- Hp. exact Hs.
Qed.

Lemma split_slash_cons (c : ascii) (s : string) :
  Str.split_slash (String c s)
  = if Ascii.eqb "/" c then EmptyString :: Str.split_slash s
    else match Str.split_slash s with
         | piece :: pieces => String c piece :: pieces
         | [] => [String c EmptyString]
         end.
Proof.
  unfold Str.split_slash. cbn [Str.split_go Str.startswith].
  destruct (Ascii.eqb "/" c); reflexivity.
Qed.

Lemma split_slash_not_nil (s : string) : Str.split_slash s <> [].
Proof.
  destruct s as [|c s]; [discriminate|].
  rewrite split_slash_cons.
  destruct (Ascii.eqb "/" c); [discriminate|].
  destruct (Str.split_slash s); discriminate.
Qed.

(** X14. The segments [split('/')] cuts a path into hold no separator, are
    one more than the separators of the path, and joined by separators
    give the path back. *)
Theorem split_slash_segments (path : string) :
  Forall (fun segment => Path.has_separator segment = false) (Str.split_slash path) /\
  length (Str.split_slash path) = S (Path.separators path) /\
  Path.join (Str.split_slash path) = path.
Proof.
  induction path as [|c path (Hall & Hlen & Hjoin)].
  - repeat split. repeat constructor.
  - rewrite split_slash_cons. cbn [Path.separators].
    rewrite (Ascii.eqb_sym c "/").
    destruct (Ascii.eqb "/" c) eqn:Hc.
    + apply Ascii.eqb_eq in Hc as <-.
      split; [constructor; [reflexivity | exact Hall]|].
      split; [simpl; rewrite Hlen; reflexivity|].
      pose proof (split_slash_not_nil path) as Hnil.
      destruct (Str.split_slash path) as [|p ps] eqn:Hsplit; [contradiction|].
      change (Path.join (EmptyString :: p :: ps))
        with (EmptyString ++ "/" ++ Path.join (p :: ps))%string.
      rewrite Hjoin. reflexivity.
    + pose proof (split_slash_not_nil path) as Hnil.
      destruct (Str.split_slash path) as [|p ps] eqn:Hsplit; [contradiction|].
      apply Forall_cons in Hall as [Hp Hps].
      split; [constructor; [|exact Hps]|].
      { cbn [Path.has_separator]. rewrite Ascii.eqb_sym, Hc. exact Hp. }
      split; [exact Hlen|].
      rewrite <- Hjoin. destruct ps; reflexivity.
Qed.

(** Every entry of the mapping the loop builds was in the mapping it
    started from or comes from a placeholder and the segment it faces. *)
Lemma collect_step_entries (pairs : list (string * string)) :
  forall (start : gmap string string) (name value : string),
    fold_left collect_step pairs start !! name = Some value ->
    start !! name = Some value \/
    exists segment,
      (segment, value) ∈ pairs /\ Path.is_placeholder segment = true /\
      name = Str.slice_1_m1 segment.
Proof.
  induction pairs as [|[f r] pairs IH]; intros start name value Hlookup.
  - left. exact Hlookup.
  - cbn [fold_left] in Hlookup. apply IH in Hlookup as [Hstart | (segment & Hin & Hp & Hn)].
    + unfold collect_step in Hstart. fold (Path.is_placeholder f) in Hstart.
      destruct (Path.is_placeholder f) eqn:Hf; [|left; exact Hstart].
      destruct (decide (Str.slice_1_m1 f = name)) as [Heq|Hne].
      * subst name. rewrite lookup_insert_eq in Hstart. injection Hstart as <-.
        right. exists f. split; [left | split; [exact Hf | reflexivity]].
      * rewrite lookup_insert_ne in Hstart by exact Hne. left. exact Hstart.
    + right. exists segment. split; [right; exact Hin | split; assumption].
Qed.

(** X15. Every path variable [collect_path_variables] returns is named by
    a placeholder segment of the pattern, the name being the segment
    without its first and last characters, and its value is the segment of
    the request at the same position, as it stands. *)
Theorem collect_path_variables_entries
    (request_path found_path name value : string) :
  collect_path_variables request_path found_path !! name = Some value ->
  exists segment,
    (segment, value) ∈ Path.zipped request_path found_path /\
    Path.is_placeholder segment = true /\
    name = Str.slice_1_m1 segment.
Proof.
  intros Hlookup. unfold collect_path_variables in Hlookup.
  apply collect_step_entries in Hlookup as [Hempty | Hentry].
  - rewrite lookup_empty in Hempty. discriminate Hempty.
  - exact Hentry.
Qed.

(** X16. A pattern none of whose segments is a placeholder gives no path
    variable, whatever the request path. *)
Theorem collect_path_variables_without_placeholder (request_path found_path : string) :
  Forall (fun segment => Path.is_placeholder segment = false)
    (Str.split_slash (strip_separators found_path)) ->
  collect_path_variables request_path found_path = ∅.
Proof.
  intros Hnone. apply map_eq. intros name. rewrite lookup_empty.
  destruct (collect_path_variables request_path found_path !! name) as [value|] eqn:Hlookup;
    [|reflexivity].
  apply collect_path_variables_entries in Hlookup as (segment & Hin & Hp & _).
  unfold Path.zipped in Hin. apply list_elem_of_In, in_combine_l, list_elem_of_In in Hin.
  rewrite Forall_forall in Hnone. rewrite (Hnone _ Hin) in Hp. discriminate Hp.
Qed.

Lemma collect_step_keeps (pairs : list (string * string)) :
  forall (start : gmap string string) (name : string),
    Forall (fun fr => Path.is_placeholder (fst fr) = true ->
                      Str.slice_1_m1 (fst fr) <> name) pairs ->
    fold_left collect_step pairs start !! name = start !! name.
Proof.
  induction pairs as [|[f r] pairs IH]; intros start name Hnone; [reflexivity|].
  inversion Hnone as [|? ? Hhere Hrest]; subst.
  cbn [fold_left]. rewrite (IH _ _ Hrest).
  unfold collect_step. fold (Path.is_placeholder f).
  destruct (Path.is_placeholder f) eqn:Hf; [|reflexivity].
  apply lookup_insert_ne. exact (Hhere Hf).
Qed.

(** X17. The value of a path variable is the request segment that faces
    the last placeholder of its name: the segments before it, whatever
    they are, and the segments after it that are no placeholder of that
    name do not count. *)
Theorem collect_path_variables_last_placeholder
    (request_path found_path segment value : string)
    (before after : list (string * string)) :
  Path.zipped request_path found_path = before ++ (segment, value) :: after ->
  Path.is_placeholder segment = true ->
  Forall (fun fr => Path.is_placeholder (fst fr) = true ->
                    Str.slice_1_m1 (fst fr) <> Str.slice_1_m1 segment) after ->
  collect_path_variables request_path found_path !! Str.slice_1_m1 segment = Some value.
Proof.
  intros Hzip Hp Hafter. unfold collect_path_variables.
  fold (Path.zipped request_path found_path). rewrite Hzip.
  rewrite fold_left_app. cbn [fold_left].
  rewrite (collect_step_keeps after _ _ Hafter).
  unfold collect_step at 1. fold (Path.is_placeholder segment). rewrite Hp.
  apply lookup_insert_eq.
Qed.

End Segments.

(** ** More properties of [read_multipart_form_data] *)

Section Multipart.
Import Re.

Lemma drop_short (n : nat) :
  forall s : string, (String.length s <= n)%nat -> Str.drop n s = EmptyString.
Proof.
  induction n as [|n IH]; intros s Hlen.
  - destruct s; [reflexivity | simpl in Hlen; lia].
  - destruct s as [|c s]; [reflexivity|]. simpl in Hlen. apply IH. lia.
Qed.

Lemma drop_long (n : nat) :
  forall s : string, (n < String.length s)%nat -> Str.drop n s <> EmptyString.
Proof.
  induction n as [|n IH]; intros s Hlen.
  - destruct s; [simpl in Hlen; lia | discriminate].
  - destruct s as [|c s]; [simpl in Hlen; lia|]. simpl in Hlen. apply IH. lia.
Qed.

(** X18. A content type of at most thirty characters, which leaves no
    boundary after the thirtieth, makes [read_multipart_form_data] raise
    the [ValueError] of [split] on an empty separator, whatever the body,
    and log nothing. *)
Theorem read_multipart_form_data_without_boundary (content_type body : string) :
  (String.length content_type <= 30)%nat ->
  read_multipart_form_data content_type body
  = (Raised (Error "ValueError" "empty separator"), []).
Proof.
  intros Hlen. unfold read_multipart_form_data.
  rewrite (drop_short 30 content_type Hlen). reflexivity.
Qed.

(** One turn of the loop leaves the mapping alone and logs for a part
    [file_pattern] matches, and logs nothing for any other part; the
    mapping it leaves does not depend on what was logged. *)
Lemma read_part_cases (fields : gmap string string) (errors : list string) (field : string) :
  read_part (fields, errors) field
  = if is_file_part field
    then (fields, errors ++ [files_not_handled])
    else (fst (read_part (fields, []) field), errors).
Proof.
  unfold is_file_part.
  destruct (re_match file_pattern field) as [groups|] eqn:Hfile.
  - exact (read_part_file fields errors field groups Hfile).
  - unfold read_part. rewrite Hfile. reflexivity.
Qed.

Lemma read_parts_split (parts : list string) :
  forall (fields : gmap string string) (errors : list string),
    fold_left read_part parts (fields, errors)
    = (fst (fold_left read_part (List.filter (fun f => negb (is_file_part f)) parts)
              (fields, [])),
       errors ++ repeat files_not_handled (length (List.filter is_file_part parts))).
Proof.
  induction parts as [|part parts IH]; intros fields errors.
  - simpl. rewrite app_nil_r. reflexivity.
  - cbn [fold_left List.filter]. rewrite read_part_cases.
    destruct (is_file_part part) eqn:Hfile; cbn [negb].
    + rewrite IH. cbn [length repeat]. rewrite <- app_assoc. reflexivity.
    + rewrite IH. cbn [fold_left].
      pose proof (read_part_cases fields [] part) as Hclean. rewrite Hfile in Hclean.
      destruct (read_part (fields, []) part) as [fields1 errors1]. cbn [fst] in *.
      injection Hclean as ->. reflexivity.
Qed.

(** X19. With a content type of more than thirty characters,
    [read_multipart_form_data] returns a mapping; it logs one error for
    each part of the body that [file_pattern] matches, and the mapping is
    the one the other parts give by themselves. *)
Theorem read_multipart_form_data_drops_file_parts (content_type body : string) :
  (30 < String.length content_type)%nat ->
  exists parts : list string,
    Str.split (Str.drop 30 content_type) body = Some parts /\
    read_multipart_form_data content_type body
    = (Returned (fst (fold_left read_part
                        (List.filter (fun f => negb (is_file_part f)) parts) (∅, []))),
       repeat files_not_handled (length (List.filter is_file_part parts))).
Proof.
  intros Hlen. unfold read_multipart_form_data, Str.split.
  pose proof (drop_long 30 content_type Hlen) as Hboundary.
  destruct (Str.drop 30 content_type) as [|c boundary] eqn:Hdrop; [contradiction|].
  eexists. split; [reflexivity|].
  rewrite read_parts_split. reflexivity.
Qed.

(** What [.*] alone takes holds no line feed. *)
Lemma dot_star_no_lf (group : string) : atoms_match [DotStar] group -> no_lf group = true.
Proof.
  cbn [atoms_match]. intros (d & c & -> & Hd & ->). rewrite append_empty. exact Hd.
Qed.

Lemma read_part_entries (fields : gmap string string) (errors : list string)
    (field name value : string) :
  fst (read_part (fields, errors) field) !! name = Some value ->
  fields !! name = Some value \/
  (exists g1 g3 g5, re_match field_pattern field = Some [g1; name; g3; value; g5]) /\
  no_lf name = true /\ no_lf value = true.
Proof.
  unfold read_part.
  destruct (re_match field_pattern field) as [groups|] eqn:Hfield; cbn [fst];
    [|left; assumption].
  destruct (re_match_sound _ _ _ Hfield) as (Hall & _).
  unfold field_pattern, per_pattern, value_pattern in Hall. cbn [app] in Hall.
  repeat match goal with
         | Hf : Forall2 _ (_ :: _) _ |- _ =>
             apply Forall2_cons_inv_l in Hf as (? & ? & ? & Hf & ->)
         | Hf : Forall2 _ [] _ |- _ => apply Forall2_nil_inv_l in Hf as ->
         end.
  match goal with
  | |- <[?k := ?v]> _ !! _ = _ -> _ =>
      destruct (decide (k = name)) as [<-|Hne]
  end.
  - rewrite lookup_insert_eq. intros [= <-]. right.
    split; [eexists _, _, _; reflexivity|].
    split; apply dot_star_no_lf; assumption.
  - rewrite lookup_insert_ne by exact Hne. left. assumption.
Qed.

Lemma read_parts_entries (parts : list string) :
  forall (fields : gmap string string) (errors : list string) (name value : string),
    fst (fold_left read_part parts (fields, errors)) !! name = Some value ->
    fields !! name = Some value \/
    (exists part g1 g3 g5,
        part ∈ parts /\ re_match field_pattern part = Some [g1; name; g3; value; g5]) /\
    no_lf name = true /\ no_lf value = true.
Proof.
  induction parts as [|part parts IH]; intros fields errors name value Hlookup.
  - left. exact Hlookup.
  - cbn [fold_left] in Hlookup.
    destruct (read_part (fields, errors) part) as [fields1 errors1] eqn:Hpart.
    apply IH in Hlookup as [Hfields1 | ((p & g1 & g3 & g5 & Hin & Hm) & Hk & Hv)].
    + replace fields1 with (fst (read_part (fields, errors) part)) in Hfields1
        by (rewrite Hpart; reflexivity).
      apply read_part_entries in Hfields1 as [Hfields | ((g1 & g3 & g5 & Hm) & Hk & Hv)].
      * left. exact Hfields.
      * right. split; [|split; assumption].
        exists part, g1, g3, g5. split; [left | exact Hm].
    + right. split; [|split; assumption].
      exists p, g1, g3, g5. split; [right; exact Hin | exact Hm].
Qed.

(** X20. Every entry of the mapping [read_multipart_form_data] returns
    comes from a part of the body that [field_pattern] matches, as its
    second and fourth groups, and neither its key nor its value holds a
    line feed: of a value of several lines only the first is kept. *)
Theorem read_multipart_form_data_entries
    (content_type body name value : string)
    (fields : gmap string string) (errors : list string) :
  read_multipart_form_data content_type body = (Returned fields, errors) ->
  fields !! name = Some value ->
  (exists parts part g1 g3 g5,
      Str.split (Str.drop 30 content_type) body = Some parts /\
      part ∈ parts /\
      re_match field_pattern part = Some [g1; name; g3; value; g5]) /\
  no_lf name = true /\ no_lf value = true.
Proof.
  unfold read_multipart_form_data. intros Hrun Hlookup.
  destruct (Str.split (Str.drop 30 content_type) body) as [parts|] eqn:Hsplit;
    [|discriminate Hrun].
  destruct (fold_left read_part parts (∅, [])) as [fields' errors'] eqn:Hfold.
  injection Hrun as <- <-.
  replace fields' with (fst (fold_left read_part parts (∅, []))) in Hlookup
    by (rewrite Hfold; reflexivity).
  apply read_parts_entries in Hlookup as [Hempty | ((p & g1 & g3 & g5 & Hin & Hm) & Hk & Hv)].
  - rewrite lookup_empty in Hempty. discriminate Hempty.
  - split; [|split; assumption].
    exists parts, p, g1, g3, g5. repeat split; assumption.
Qed.

End Multipart.

(** ** Properties of [handle_ws] *)

Lemma omap_head {A B : Type} (f : A -> option B) (x : A) (l : list A) :
  omap f (x :: l) = match f x with Some y => y :: omap f l | None => omap f l end.
Proof. reflexivity. Qed.

Lemma omap_none {A B : Type} (f : A -> option B) : omap f [] = [].
Proof. reflexivity. Qed.

Ltac read_trace :=
  repeat first [rewrite omap_app | rewrite omap_head | rewrite omap_none];
  cbv beta iota.

Section Websocket.
Context {E : Env}.

(** The loop over the [before] hooks of [handle_ws] registers nothing,
    listens to nothing and sends no frame; it closes the connection,
    without a code, exactly when it is left by [break], and it lets no
    [APIException] out. *)
Lemma ws_before_middlewares_facts (mws : list Middleware) :
  forall (c : Connection) (st : State) (o : Outcome (Connection * bool)) (st' : State)
         (t : list Event),
    ws_before_middlewares mws c st = (o, st', t) ->
    websocket_connections st' = websocket_connections st /\
    registrations t = [] /\ listened t = [] /\ monitored t = [] /\
    frames t = [] /\ endpoint_calls t = [] /\ ws_after_calls t = [] /\
    match o with
    | Returned (_, false) =>
        close_codes t = [] /\ map fst (ws_before_calls t) = map mw_name mws
    | Returned (_, true) => close_codes t = [None]
    | Raised e => close_codes t = [] /\ forall a, e <> API a
    end.
Proof.
  induction mws as [|m rest IH]; intros c st o st' t Hrun; simpl in Hrun.
  - injection Hrun as <- <- <-. repeat split; reflexivity.
  - revert Hrun. unfold websocket_close. monad_step.
    destruct (before_ws m c (world st)) as [[c1|[a|cls msg]] w]; simpl.
    + destruct (ws_before_middlewares rest c1 _) as [[o1 st1] t1] eqn:Hrest.
      intros Hrun. injection Hrun as <- <- <-.
      destruct (IH _ _ _ _ _ Hrest) as (Hreg & Hr & Hl & Hm & Hf & He & Ha & Ho).
      simpl in Hreg. simpl. rewrite Hr, Hl, Hm, Hf, He, Ha.
      repeat split; try assumption; try reflexivity.
      destruct o1 as [[c2 [|]]|e]; simpl; try assumption.
      destruct Ho as [Hc Hn]. split; [exact Hc | rewrite Hn; reflexivity].
    + intros Hrun. injection Hrun as <- <- <-. simpl. repeat split; reflexivity.
    + intros Hrun. injection Hrun as <- <- <-. simpl.
      repeat split; try reflexivity. discriminate.
Qed.

(** The loop over the [after] hooks of [handle_ws] calls each hook on the
    connection it was entered with, in the order of its list, registers
    nothing, closes nothing and lets no [APIException] out. *)
Lemma ws_after_middlewares_facts (mws : list Middleware) (c : Connection) :
  forall (st : State) (o : Outcome unit) (st' : State) (t : list Event),
    ws_after_middlewares mws c st = (o, st', t) ->
    websocket_connections st' = websocket_connections st /\
    registrations t = [] /\ listened t = [] /\ monitored t = [] /\
    frames t = [] /\ endpoint_calls t = [] /\ close_codes t = [] /\
    ws_before_calls t = [] /\
    ws_after_calls t `prefix_of` map (fun m => (mw_name m, c)) mws /\
    (o = Returned tt -> ws_after_calls t = map (fun m => (mw_name m, c)) mws) /\
    (forall a, o <> Raised (API a)).
Proof.
  induction mws as [|m rest IH]; intros st o st' t Hrun; simpl in Hrun.
  - injection Hrun as <- <- <-. repeat split; try reflexivity; discriminate.
  - revert Hrun. monad_step.
    destruct (after_ws m c (world st)) as [[c1|[a|cls msg]] w]; simpl.
    + destruct (ws_after_middlewares rest c _) as [[o1 st1] t1] eqn:Hrest.
      intros Hrun. injection Hrun as <- <- <-.
      destruct (IH _ _ _ _ Hrest)
        as (Hreg & Hr & Hl & Hm & Hf & He & Hc & Hb & Hpre & Hall & Hapi).
      simpl in Hreg. simpl. rewrite Hr, Hl, Hm, Hf, He, Hc, Hb.
      repeat split; try assumption; try reflexivity.
      * apply prefix_cons. exact Hpre.
      * intros ->. rewrite (Hall eq_refl). reflexivity.
    + destruct (ws_after_middlewares rest c _) as [[o1 st1] t1] eqn:Hrest.
      intros Hrun. injection Hrun as <- <- <-.
      destruct (IH _ _ _ _ Hrest)
        as (Hreg & Hr & Hl & Hm & Hf & He & Hc & Hb & Hpre & Hall & Hapi).
      simpl in Hreg. simpl. rewrite Hr, Hl, Hm, Hf, He, Hc, Hb.
      repeat split; try assumption; try reflexivity.
      * apply prefix_cons. exact Hpre.
      * intros ->. rewrite (Hall eq_refl). reflexivity.
    + intros Hrun. injection Hrun as <- <- <-. simpl.
      repeat split; try reflexivity; try discriminate.
      exists (map (fun m0 => (mw_name m0, c)) rest). reflexivity.
Qed.





(** X23. Whatever the route, the hooks and [listen] do, a websocket
    dispatch sends no HTTP frame and calls no HTTP endpoint, closes at most
    one connection, and either registers nothing, listens to nothing and
    leaves the table of live connections as it was, or registers exactly
    one connection, listens to that one and closes none. *)
Theorem handle_ws_registers_at_most_once (config : Config) (scope : Scope) (st : State) :
  let r := handle_ws config scope st in
  frames (snd r) = [] /\
  endpoint_calls (snd r) = [] /\
  (length (close_codes (snd r)) <= 1)%nat /\
  ((registrations (snd r) = [] /\ listened (snd r) = [] /\
    websocket_connections (snd (fst r)) = websocket_connections st) \/
   (exists c, registrations (snd r) = [c] /\ listened (snd r) = [c] /\
              close_codes (snd r) = [])).
Proof.
  intros r. subst r. unfold handle_ws.
  destruct (find_endpoint config (Connection_path (Websocket_init scope)))
    as [[[n wr f|n api [|] f inst]|] fp] eqn:Hfind;
    unfold websocket_close, new_connection; monad_step;
    try (repeat split; try reflexivity; try lia; left; repeat split; reflexivity).
  destruct (ws_before_middlewares _ _ _) as [[[[c [|]]|e] st1] tb] eqn:Hb;
    destruct (ws_before_middlewares_facts _ _ _ _ _ _ Hb)
      as (Hregb & Hrb & Hlb & _ & Hfb & Heb & _ & Hcb).
  - destruct (ws_after_middlewares (reversed_middlewares config) c st1)
      as [[oa st2] ta] eqn:Ha.
    destruct (ws_after_middlewares_facts _ _ _ _ _ _ Ha)
      as (Hrega & Hra & Hla & _ & Hfa & Hea & Hca & _).
    destruct oa as [[]|ea]; cbn [fst snd];
      unfold frames, endpoint_calls, close_codes, registrations, listened in *;
      read_trace; rewrite ?Hrb, ?Hlb, ?Hfb, ?Heb, ?Hcb, ?Hra, ?Hla, ?Hfa, ?Hea, ?Hca;
      (repeat split; try reflexivity; try (cbn; lia));
      left; repeat split; try reflexivity; congruence.
  - destruct Hcb as [Hcb _]. cbn [fst snd].
    destruct (Connection_listen c (world st1)) as [[[]|el] w]; cbn [fst snd].
    + destruct (ws_after_middlewares (reversed_middlewares config) c _)
        as [[oa st2] ta] eqn:Ha.
      destruct (ws_after_middlewares_facts _ _ _ _ _ _ Ha)
        as (Hrega & Hra & Hla & _ & Hfa & Hea & Hca & _).
      destruct oa as [[]|ea]; cbn [fst snd];
        unfold frames, endpoint_calls, close_codes, registrations, listened in *;
        read_trace; rewrite ?Hrb, ?Hlb, ?Hfb, ?Heb, ?Hcb, ?Hra, ?Hla, ?Hfa, ?Hea, ?Hca;
        (repeat split; try reflexivity; try (cbn; lia));
        right; exists c; repeat split; reflexivity.
    + unfold frames, endpoint_calls, close_codes, registrations, listened in *.
      read_trace. rewrite ?Hrb, ?Hlb, ?Hfb, ?Heb, ?Hcb.
      repeat split; try reflexivity; try (cbn; lia).
      right. exists c. repeat split; reflexivity.
  - destruct Hcb as [Hcb _]. cbn [fst snd].
    unfold frames, endpoint_calls, close_codes, registrations, listened in *.
    read_trace. rewrite ?Hrb, ?Hlb, ?Hfb, ?Heb, ?Hcb.
    repeat split; try reflexivity; try (cbn; lia).
    left. repeat split; try reflexivity. exact Hregb.
Qed.

(** X24. A websocket dispatch whose path has no route closes the probe
    connection with the code 1000 and returns: no middleware hook is
    called, nothing is registered or listened to, the table of live
    connections is left as it was and the monitoring is told [Rejected]. *)
Theorem handle_ws_rejects_unknown_path (config : Config) (scope : Scope) (st : State)
    (found_path : string) :
  find_endpoint config (Connection_path (Websocket_init scope)) = (None, found_path) ->
  let r := handle_ws config scope st in
  fst (fst r) = Returned tt /\
  snd (fst r) = st /\
  close_codes (snd r) = [Some 1000] /\
  ws_before_calls (snd r) = [] /\ ws_after_calls (snd r) = [] /\
  registrations (snd r) = [] /\ listened (snd r) = [] /\
  logged (snd r) = [] /\
  monitored (snd r) = [Text "Rejected"].
Proof.
  intros Hfind r. subst r. rewrite (handle_ws_no_route config scope st found_path Hfind).
  repeat split; reflexivity.
Qed.

(** X25. A websocket dispatch to a class that does not derive from
    [GenericWebsocket] logs at the critical level a message that names the
    class, closes the probe connection with the code 1014 and returns: the
    class is not instantiated into a connection that any hook sees, no
    hook is called, nothing is registered or listened to and the table of
    live connections is left as it was. *)
Theorem handle_ws_rejects_other_class (config : Config) (scope : Scope) (st : State)
    (found_path name : string) (api : bool) (f : Handler) (inst : Scope -> Connection) :
  find_endpoint config (Connection_path (Websocket_init scope))
  = (Some (ClassEndpoint name api false f inst), found_path) ->
  let r := handle_ws config scope st in
  fst (fst r) = Returned tt /\
  snd (fst r) = st /\
  close_codes (snd r) = [Some 1014] /\
  ws_before_calls (snd r) = [] /\ ws_after_calls (snd r) = [] /\
  registrations (snd r) = [] /\ listened (snd r) = [] /\
  logged (snd r)
  = [(CRITICAL,
      ("You may have forgotten to inherit from GenericWebsocket on the " ++ name ++ "()")%string)] /\
  monitored (snd r) = [Text "Rejected"].
Proof.
  intros Hfind r. subst r.
  rewrite (handle_ws_not_a_websocket config scope st found_path name api f inst Hfind).
  repeat split; reflexivity.
Qed.

End Websocket.

(** ** The further properties on the sample application *)

Section MoreRuns.
Import Sample Cases.

Lemma sample_after_hooks (mws : list Middleware) :
  Forall (fun m => exists name b, m = middleware name b None) mws ->
  forall m (response0 : Response) (w0 : World) e w',
    m ∈ mws -> after m response0 w0 = (Raised e, w') -> exists a, e = API a.
Proof.
  intros Hall m response0 w0 e w' Hin Hraise.
  rewrite Forall_forall in Hall. destruct (Hall m Hin) as (name & b & ->).
  discriminate Hraise.
Qed.


Lemma handled_dispatch_runs_whole_chain_witness :
  let t := snd (handle_http (load_configs [passing; passing_too] urls true)
                  (http "/users/42/") start) in
  before_calls t = ["A"; "B"] /\
  EndpointCalled "user" "/users/42/" (collect_path_variables "/users/42/" "users/<id>/") ∈ t /\
  endpoint_calls t = ["user"] /\
  map fst (after_calls t) = ["B"; "A"] /\
  head (after_calls t) = Some ("B", ok_response).
Proof.
  apply (handled_dispatch_runs_whole_chain (E := env)
           [passing; passing_too] urls true (http "/users/42/") start (state 2)
           (FunctionEndpoint "user" true answer) "users/<id>/" "/users/42/" ok_response
           [@BeforeCalled env "A" "/users/42/"; @BeforeCalled env "B" "/users/42/"] 3%nat);
    try reflexivity.
  apply sample_after_hooks. repeat constructor; eexists _, _; reflexivity.
Defined.

Lemma handler_refusal_runs_after_chain_witness :
  let t := snd (handle_http (load_configs [passing; passing_too] urls true)
                  (http "/refuse/") start) in
  map fst (after_calls t) = ["B"; "A"] /\
  head (after_calls t) = Some ("B", handle_exceptions forbidden) /\
  logged t = [].
Proof.
  apply (handler_refusal_runs_after_chain (E := env)
           [passing; passing_too] urls true (http "/refuse/") start (state 2)
           (FunctionEndpoint "refuse" true refuse) "refuse/" "/refuse/" forbidden
           [@BeforeCalled env "A" "/refuse/"; @BeforeCalled env "B" "/refuse/"] 3%nat);
    try reflexivity.
  apply sample_after_hooks. repeat constructor; eexists _, _; reflexivity.
Defined.

Lemma before_hook_defect_frames_500_witness :
  let r := handle_http (load_configs [passing; broken; passing_too] urls true)
             (http "/users/42/") start in
  derives_from_Exception "KeyError" = true /\
  fst (fst r) = Returned tt /\
  before_calls (snd r) = ["A"; "X"] /\
  endpoint_calls (snd r) = [] /\
  after_calls (snd r) = [] /\
  logged (snd r) = [(CRITICAL, "KeyError")] /\
  frames (snd r)
  = [HttpResponseStart 500 [("content-type", "application/json")];
     HttpResponseBody (Some (json_dumps (PyDict [("detail", PyStr "Internal Server Error")])))].
Proof.
  cbv zeta. split; [reflexivity|].
  apply (before_hook_defect_frames_500 (E := env)
           (load_configs [passing; broken; passing_too] urls true)
           (http "/users/42/") start (state 1)
           (FunctionEndpoint "user" true answer) "users/<id>/" "KeyError" "user"
           [passing] [passing_too] broken "/users/42/"
           [@BeforeCalled env "A" "/users/42/"] 2%nat);
    reflexivity.
Defined.

Lemma http_response_exception_overrides_body_witness :
  http_response {| kw_status_code := Some 204;
                   kw_monitoring := Some (Some monitor);
                   kw_body := Some (Some "{}");
                   kw_exception := Some true;
                   kw_others := [] |} start
  = (Returned tt, start,
     [MonitoringAfter (StatusCode 204);
      Sent (HttpResponseStart 204 [("content-type", "application/json")]);
      Sent (HttpResponseBody (Some (json_dumps (PyDict [("detail", PyStr "No Content")]))))]).
Proof.
  apply (http_response_exception_overrides_body (E := env)
           {| kw_status_code := Some 204;
              kw_monitoring := Some (Some monitor);
              kw_body := Some (Some "{}");
              kw_exception := Some true;
              kw_others := [] |} 204 "No Content" (Some monitor) start);
    reflexivity.
Defined.

Lemma http_response_unknown_status_raises_witness :
  status_text 999 = None /\
  http_response {| kw_status_code := Some 999;
                   kw_monitoring := Some (Some monitor);
                   kw_body := None;
                   kw_exception := Some true;
                   kw_others := [] |} start
  = (Raised (Error "KeyError" "999"), start, []).
Proof.
  split; [reflexivity|].
  apply (http_response_unknown_status_raises (E := env)
           {| kw_status_code := Some 999;
              kw_monitoring := Some (Some monitor);
              kw_body := None;
              kw_exception := Some true;
              kw_others := [] |} 999 (Some monitor) start);
    reflexivity.
Defined.

Lemma http_response_passes_body_on_witness :
  http_response {| kw_status_code := Some 200;
                   kw_monitoring := Some None;
                   kw_body := Some (Some "");
                   kw_exception := None;
                   kw_others := [] |} start
  = (Returned tt, start,
     [Sent (HttpResponseStart 200 [("content-type", "application/json")]);
      Sent (HttpResponseBody (Some ""))]).
Proof.
  apply (http_response_passes_body_on (E := env)
           {| kw_status_code := Some 200;
              kw_monitoring := Some None;
              kw_body := Some (Some "");
              kw_exception := None;
              kw_others := [] |} 200 None start);
    try reflexivity; discriminate.
Defined.

Lemma read_body_reads_up_to_the_final_message_witness :
  read_body (chunks ++ final_chunk :: next_request) = Some ("abcd", next_request).
Proof.
  apply (read_body_reads_up_to_the_final_message chunks final_chunk next_request).
  - repeat constructor.
  - reflexivity.
Defined.

Lemma collect_path_variables_entries_witness :
  exists segment,
    (segment, "42") ∈ Path.zipped "/users/42/" "/users/<id>/" /\
    Path.is_placeholder segment = true /\
    "id" = Str.slice_1_m1 segment.
Proof.
  apply (collect_path_variables_entries "/users/42/" "/users/<id>/" "id" "42").
  vm_compute. reflexivity.
Defined.

Lemma collect_path_variables_without_placeholder_witness :
  collect_path_variables "/users/42/" "/users/list/" = ∅.
Proof.
  apply (collect_path_variables_without_placeholder "/users/42/" "/users/list/").
  repeat constructor.
Defined.

Lemma collect_path_variables_last_placeholder_witness :
  collect_path_variables "/a/1/b/2/" "/a/<id>/b/<id>/" !! "id" = Some "2".
Proof.
  apply (collect_path_variables_last_placeholder "/a/1/b/2/" "/a/<id>/b/<id>/" "<id>" "2"
           [("a", "a"); ("<id>", "1"); ("b", "b")] []).
  - reflexivity.
  - reflexivity.
  - constructor.
Defined.

Lemma read_multipart_form_data_without_boundary_witness :
  read_multipart_form_data "application/json" form_body
  = (Raised (Error "ValueError" "empty separator"), []).
Proof.
  apply (read_multipart_form_data_without_boundary "application/json" form_body).
  simpl. lia.
Defined.

Lemma read_multipart_form_data_drops_file_parts_witness :
  exists parts : list string,
    Str.split (Str.drop 30 form_content_type) upload_body = Some parts /\
    read_multipart_form_data form_content_type upload_body
    = (Returned (fst (fold_left read_part
                        (List.filter (fun f => negb (is_file_part f)) parts) (∅, []))),
       repeat files_not_handled (length (List.filter is_file_part parts))).
Proof.
  apply (read_multipart_form_data_drops_file_parts form_content_type upload_body).
  simpl. lia.
Defined.

Lemma read_multipart_form_data_entries_witness :
  (exists parts part g1 g3 g5,
      Str.split (Str.drop 30 form_content_type) form_body = Some parts /\
      part ∈ parts /\
      Re.re_match field_pattern part = Some [g1; ("a" ++ Re.DQUOTE)%string; g3; "1"; g5]) /\
  Re.no_lf ("a" ++ Re.DQUOTE)%string = true /\ Re.no_lf "1" = true.
Proof.
  apply (read_multipart_form_data_entries form_content_type form_body
           ("a" ++ Re.DQUOTE)%string "1" {[ ("a" ++ Re.DQUOTE)%string := "1" ]} []).
  - vm_compute. reflexivity.
  - vm_compute. reflexivity.
Defined.



Lemma handle_ws_rejects_unknown_path_witness :
  let r := handle_ws (load_configs [passing] urls true) (websocket "/nowhere/") start in
  fst (fst r) = Returned tt /\
  snd (fst r) = start /\
  close_codes (snd r) = [Some 1000] /\
  ws_before_calls (snd r) = [] /\ ws_after_calls (snd r) = [] /\
  registrations (snd r) = [] /\ listened (snd r) = [] /\
  logged (snd r) = [] /\
  monitored (snd r) = [Text "Rejected"].
Proof.
  apply (handle_ws_rejects_unknown_path (E := env)
           (load_configs [passing] urls true) (websocket "/nowhere/") start "").
  reflexivity.
Defined.

Lemma handle_ws_rejects_other_class_witness :
  let r := handle_ws (load_configs [passing] urls true) (websocket "/page/") start in
  fst (fst r) = Returned tt /\
  snd (fst r) = start /\
  close_codes (snd r) = [Some 1014] /\
  ws_before_calls (snd r) = [] /\ ws_after_calls (snd r) = [] /\
  registrations (snd r) = [] /\ listened (snd r) = [] /\
  logged (snd r)
  = [(CRITICAL, "You may have forgotten to inherit from GenericWebsocket on the Page()")] /\
  monitored (snd r) = [Text "Rejected"].
Proof.
  apply (handle_ws_rejects_other_class (E := env)
           (load_configs [passing] urls true) (websocket "/page/") start
           "page/" "Page" false answer (fun s => scope_path s)).
  reflexivity.
Defined.

End MoreRuns.
